(** * datastoreConnector: atomic counters and entity helpers over Cloud Datastore

    A shallow embedding of the Go package [connector]
    (datasoreConnector.go and datastoreAtomicConnector.go) together with a
    small model of the library calls the package makes, followed by the
    properties of the package that the specification states. *)

From Stdlib Require Import ZArith Bool Lia Ascii.
From stdpp Require Import gmap strings list fin_maps.

Local Open Scope string_scope.
Local Open Scope Z_scope.

(** ** Go's [int]

    [BasicCounter.Amount] and both deltas are of Go type [int]; on the 64-bit
    targets the package is built for, [+] and [-] wrap around modulo 2^64. *)

Module GoInt.

Definition int_size : Z := 64.
Definition min_int : Z := - 2 ^ (int_size - 1).
Definition max_int : Z := 2 ^ (int_size - 1) - 1.

(** The two's-complement representative of [z]. *)
Definition wrap (z : Z) : Z := (z - min_int) mod 2 ^ int_size + min_int.

Definition add (x y : Z) : Z := wrap (x + y).
Definition sub (x y : Z) : Z := wrap (x - y).

Definition in_range (z : Z) : Prop := min_int <= z <= max_int.

End GoInt.

(** ** The world outside the package *)

(** Go [error] values; the [nil] error is [None]. *)
Inductive error : Type :=
  | ErrNoSuchEntity
  | ErrOther (msg : string).

Abbreviation goerr := (option error).

Definition is_nil (err : goerr) : bool :=
  match err with None => true | Some _ => false end.

(** [err == datastore.ErrNoSuchEntity] *)
Definition is_ErrNoSuchEntity (err : goerr) : bool :=
  match err with Some ErrNoSuchEntity => true | _ => false end.

(** [datastore.NameKey(kind, name, nil)]: a key is a kind (the collection)
    and a name (the entity identifier). *)
Abbreviation Key := (string * string)%type.
Definition NameKey (kind name : string) : Key := (kind, name).

(** [type BasicCounter struct { Amount int }] *)
Record BasicCounter : Type := mkCounter { Amount : Z }.

(** How a client authenticates. *)
Inductive credentials : Type :=
  | AmbientCredentials
  | TokenSource (jsonKey : string).

(** A [*datastore.Client]: numbered in order of construction, remembering
    what it was constructed from; [client_host] is the value of
    DATASTORE_EMULATOR_HOST it read from the process environment. *)
Record Client : Type := mkClient {
  client_id : nat;
  client_project : string;
  client_host : option string;
  client_cred : credentials
}.

(** A [*datastore.Transaction]: nil, or the transaction that is open.  The
    methods of a transaction read its fields, so calling one on the nil
    transaction panics. *)
Inductive Transaction : Type := nilTransaction | liveTransaction.

(** [context.Context]; the package only ever uses [context.Background()]. *)
Inductive Context : Type := Background.

(** What the collaborators answer during one call of the package: the error
    result of every library call, and the handle [NewTransaction] hands
    out.  (The library returns a nil handle together with its errors; the
    package never looks at that error, so the two are kept apart here.) *)
Record Oracle : Type := mkOracle {
  new_client_err : goerr;
  jwt_config_err : goerr;
  new_transaction : Transaction * goerr;
  tx_get_err : goerr;
  tx_put_err : goerr;
  tx_commit_err : goerr;
  delete_err : goerr
}.

Definition no_faults : Oracle :=
  mkOracle None None (liveTransaction, None) None None None None.

(** The environment of the process: the stored records, the mutations
    queued on the open transaction, the process environment variables, the
    file system, every client constructed so far (newest first), and the
    oracle. *)
Record Env : Type := mkEnv {
  store : gmap Key BasicCounter;
  pending : list (Key * BasicCounter);
  environ : gmap string string;
  files : gmap string string;
  clients : list Client;
  oracle : Oracle
}.

Definition with_store (f : gmap Key BasicCounter -> gmap Key BasicCounter) (e : Env) : Env :=
  mkEnv (f (store e)) (pending e) (environ e) (files e) (clients e) (oracle e).
Definition with_pending (f : list (Key * BasicCounter) -> list (Key * BasicCounter)) (e : Env) : Env :=
  mkEnv (store e) (f (pending e)) (environ e) (files e) (clients e) (oracle e).
Definition with_environ (f : gmap string string -> gmap string string) (e : Env) : Env :=
  mkEnv (store e) (pending e) (f (environ e)) (files e) (clients e) (oracle e).
Definition with_clients (f : list Client -> list Client) (e : Env) : Env :=
  mkEnv (store e) (pending e) (environ e) (files e) (f (clients e)) (oracle e).
Definition with_oracle (o : Oracle) (e : Env) : Env :=
  mkEnv (store e) (pending e) (environ e) (files e) (clients e) o.

(** ** A monad for the package's code

    A call either returns a value and a new state, panics (a nil pointer is
    dereferenced), or ends the process through [log.Fatal]. *)

Inductive fatal : Type :=
  | FatalErr (e : error)
  | FatalMsg (msg : string).

Inductive outcome (S A : Type) : Type :=
  | Ret (a : A) (s : S)
  | Panic
  | Fatal (f : fatal).
Arguments Ret {S A} a s.
Arguments Panic {S A}.
Arguments Fatal {S A} f.

Definition M (S A : Type) : Type := S -> outcome S A.

#[global] Instance M_ret {S} : MRet (M S) := fun A a s => Ret a s.

#[global] Instance M_bind {S} : MBind (M S) := fun A B k m s =>
  match m s with
  | Ret a s' => k a s'
  | Panic => Panic
  | Fatal f => Fatal f
  end.

Definition gets {S A} (f : S -> A) : M S A := fun s => Ret (f s) s.
Definition modify {S} (f : S -> S) : M S unit := fun s => Ret tt (f s).
Definition panic {S A} : M S A := fun _ => Panic.

(** [log.Fatal(err)] and [log.Fatal("...")] *)
Definition log_Fatal {S A} (f : fatal) : M S A := fun _ => Fatal f.

(** [if err != nil { log.Fatal(err) }] *)
Definition fatal_if {S} (err : goerr) : M S unit :=
  match err with
  | Some e => log_Fatal (FatalErr e)
  | None => mret tt
  end.

(** Whether a call ended the process with the message of the [default]
    branch of the factories' [switch]. *)
Definition unknown_client {S A} (o : outcome S A) : bool :=
  match o with
  | Fatal (FatalMsg msg) => String.eqb msg "Unknown Datastore client"
  | _ => false
  end.

(** The value a call returned, if it returned. *)
Definition returned {S A} (o : outcome S A) : option A :=
  match o with Ret a _ => Some a | _ => None end.

(** The state a call left behind, if it returned. *)
Definition final {S A} (o : outcome S A) : option S :=
  match o with Ret _ s => Some s | _ => None end.

(** ** The library calls the package makes *)

(** [os.Setenv(key, value)] *)
Definition os_Setenv (key value : string) : M Env unit :=
  modify (with_environ <[key := value]>).

(** The elements of a path: the pieces between its slashes, [cur] being the
    piece read so far. *)
Fixpoint split_slash (cur : string) (s : string) : list string :=
  match s with
  | EmptyString => [cur]
  | String c rest =>
      if Ascii.eqb c "/"%char then cur :: split_slash "" rest
      else split_slash (cur ++ String c "") rest
  end.

(** The elements [path.Clean] keeps, the last one first: empty elements and
    [.] are dropped; [..] removes the element before it, is dropped at the
    root, and is kept at the start of a path that is not rooted. *)
Fixpoint clean_elements (rooted : bool) (kept elems : list string) : list string :=
  match elems with
  | [] => kept
  | el :: elems =>
      if String.eqb el "" || String.eqb el "." then clean_elements rooted kept elems
      else if String.eqb el ".." then
        match kept with
        | top :: below =>
            if String.eqb top ".." then clean_elements rooted (".." :: kept) elems
            else clean_elements rooted below elems
        | [] =>
            if rooted then clean_elements rooted [] elems
            else clean_elements rooted [".."] elems
        end
      else clean_elements rooted (el :: kept) elems
  end.

(** [path.Clean(p)]: the shortest path equivalent to [p] by purely lexical
    processing; the empty path becomes ["."]. *)
Definition path_Clean (p : string) : string :=
  let rooted := match p with String c _ => Ascii.eqb c "/"%char | EmptyString => false end in
  let body := String.concat "/" (rev (clean_elements rooted [] (split_slash "" p))) in
  if rooted then "/" ++ body
  else if String.eqb body "" then "." else body.

(** [path.Join(dir, file)]: the non-empty arguments joined by a slash, and
    the result cleaned; the empty string if both are empty. *)
Definition path_Join (dir file : string) : string :=
  if String.eqb dir "" then
    if String.eqb file "" then "" else path_Clean file
  else path_Clean (dir ++ "/" ++ file).
Arguments path_Join : simpl never.

(** [ioutil.ReadFile(name)] *)
Definition ioutil_ReadFile (name : string) : M Env (string * goerr) :=
  fun e => match files e !! name with
           | Some content => Ret (content, None) e
           | None => Ret ("", Some (ErrOther "no such file or directory")) e
           end.

(** [google.JWTConfigFromJSON(jsonKey, scope)]; the configuration is
    identified with the key it was read from. *)
Definition google_JWTConfigFromJSON (jsonKey : string) : M Env (string * goerr) :=
  fun e => match jwt_config_err (oracle e) with
           | Some err => Ret ("", Some err) e
           | None => Ret (jsonKey, None) e
           end.

(** [datastore.NewClient(ctx, projectID, opts...)]: a new client reads
    the emulator host from the process environment as it is at that
    moment. *)
Definition datastore_NewClient (ctx : Context) (projectID : string)
    (cred : credentials) : M Env (option Client * goerr) :=
  fun e => match new_client_err (oracle e) with
           | Some err => Ret (None, Some err) e
           | None =>
               let c := mkClient (length (clients e)) projectID
                          (environ e !! "DATASTORE_EMULATOR_HOST") cred in
               Ret (Some c, None) (with_clients (cons c) e)
           end.

(** [c.NewTransaction(ctx)]: hands out what the oracle says; a transaction
    starts with no write queued. *)
Definition Client_NewTransaction (c : option Client) (ctx : Context)
    : M Env (Transaction * goerr) :=
  match c with
  | None => panic
  | Some _ => fun e => Ret (new_transaction (oracle e)) (with_pending (fun _ => []) e)
  end.

(** [t.Get(key, &dst)]: returns the destination as the call leaves it.  A
    missing record is reported as [ErrNoSuchEntity]; on the errors modelled
    here the destination is left as it was (an error the library returns
    after it has loaded some fields is not among them). *)
Definition Transaction_Get (t : Transaction) (key : Key) (dst : BasicCounter)
    : M Env (BasicCounter * goerr) :=
  match t with
  | nilTransaction => panic
  | liveTransaction => fun e =>
      match tx_get_err (oracle e) with
      | Some err => Ret (dst, Some err) e
      | None =>
          match store e !! key with
          | Some c => Ret (c, None) e
          | None => Ret (dst, Some ErrNoSuchEntity) e
          end
      end
  end.

(** [t.Put(key, &src)]: queues the write on the transaction. *)
Definition Transaction_Put (t : Transaction) (key : Key) (src : BasicCounter)
    : M Env goerr :=
  match t with
  | nilTransaction => panic
  | liveTransaction => fun e =>
      match tx_put_err (oracle e) with
      | Some err => Ret (Some err) e
      | None => Ret None (with_pending (fun q => (q ++ [(key, src)])%list) e)
      end
  end.

Definition apply_mutations (q : list (Key * BasicCounter))
    (st : gmap Key BasicCounter) : gmap Key BasicCounter :=
  foldl (fun st kv => <[fst kv := snd kv]> st) st q.

(** [t.Commit()]: applies the queued writes, all or none. *)
Definition Transaction_Commit (t : Transaction) : M Env goerr :=
  match t with
  | nilTransaction => panic
  | liveTransaction => fun e =>
      match tx_commit_err (oracle e) with
      | Some err => Ret (Some err) (with_pending (fun _ => []) e)
      | None =>
          Ret None (with_pending (fun _ => [])
                      (with_store (apply_mutations (pending e)) e))
      end
  end.

(** [c.Delete(ctx, key)]: removes the record unless the call fails. *)
Definition Client_Delete (c : option Client) (ctx : Context) (key : Key)
    : M Env goerr :=
  match c with
  | None => panic
  | Some _ => fun e =>
      match delete_err (oracle e) with
      | Some err => Ret (Some err) e
      | None => Ret None (with_store (delete key) e)
      end
  end.

(** What the store answers to the calls made outside a transaction: the
    error result of [Client.Put] and of [Client.Get].  Which keys the store
    accepts is part of these answers. *)
Record ClientAnswers : Type := mkClientAnswers {
  client_put_err : goerr;
  client_get_err : goerr
}.

(** The environment together with those answers. *)
Record Backend : Type := mkBackend {
  backend_env : Env;
  backend_answers : ClientAnswers
}.

(** Running a call that only needs the environment. *)
Definition on_env {A} (m : M Env A) : M Backend A :=
  fun b => match m (backend_env b) with
           | Ret a e => Ret a (mkBackend e (backend_answers b))
           | Panic => Panic
           | Fatal f => Fatal f
           end.

(** [c.Put(ctx, key, src)]: writes the record under the key, whether or not
    there was one, and returns the key; on an error nothing is written and
    the key returned is nil. *)
Definition Client_Put (c : option Client) (ctx : Context) (key : Key)
    (src : BasicCounter) : M Backend (option Key * goerr) :=
  match c with
  | None => panic
  | Some _ => fun b =>
      match client_put_err (backend_answers b) with
      | Some err => Ret (None, Some err) b
      | None =>
          Ret (Some key, None)
            (mkBackend (with_store <[key := src]> (backend_env b)) (backend_answers b))
      end
  end.

(** [c.Get(ctx, key, &dst)]: returns the destination as the call leaves it.
    A missing record is reported as [ErrNoSuchEntity]; on every error the
    destination is left as it was. *)
Definition Client_Get (c : option Client) (ctx : Context) (key : Key)
    (dst : BasicCounter) : M Backend (BasicCounter * goerr) :=
  match c with
  | None => panic
  | Some _ => fun b =>
      match client_get_err (backend_answers b) with
      | Some err => Ret (dst, Some err) b
      | None =>
          match store (backend_env b) !! key with
          | Some r => Ret (r, None) b
          | None => Ret (dst, Some ErrNoSuchEntity) b
          end
      end
  end.

(** ** datasoreConnector.go *)

Module DatastoreConnector.

Definition datatoreClientType : Type := Z.

(** [const ( SIMPLE datatoreClientType = 1 + iota; EMULATOR; KEYFILE )] *)
Definition SIMPLE : datatoreClientType := 1 + 0.
Definition EMULATOR : datatoreClientType := 1 + 1.
Definition KEYFILE : datatoreClientType := 1 + 2.

Definition getClientType (emulatorEnable : bool)
    (gcloudCredentialsPath : string) : datatoreClientType :=
  if emulatorEnable then EMULATOR
  else if negb (String.eqb gcloudCredentialsPath "") then KEYFILE
       else SIMPLE.

Record datastoreConnector : Type := mkConnector {
  client : option Client;
  ctx : Context
}.

(** The process: the package variables [once] and [Instance], and the
    environment. *)
Record Process : Type := mkProcess {
  once : bool;
  Instance : option datastoreConnector;
  env : Env
}.

Definition start (e : Env) : Process := mkProcess false None e.

Definition lift {A} (m : M Env A) : M Process A :=
  fun p => match m (env p) with
           | Ret a e => Ret a (mkProcess (once p) (Instance p) e)
           | Panic => Panic
           | Fatal f => Fatal f
           end.

(** [once.Do(f)] *)
Definition once_Do (f : M Process unit) : M Process unit :=
  fun p => if once p then Ret tt p
           else match f p with
                | Ret _ p' => Ret tt (mkProcess true (Instance p') (env p'))
                | Panic => Panic
                | Fatal e => Fatal e
                end.

(** [Instance = new(datastoreConnector)] *)
Definition new_Instance : M Process unit :=
  modify (fun p => mkProcess (once p) (Some (mkConnector None Background)) (env p)).

(** [Instance.client = c] *)
Definition set_Instance_client (c : option Client) : M Process unit :=
  fun p => match Instance p with
           | None => Panic
           | Some i => Ret tt (mkProcess (once p) (Some (mkConnector c (ctx i))) (env p))
           end.

(** [Instance.ctx = c] *)
Definition set_Instance_ctx (c : Context) : M Process unit :=
  fun p => match Instance p with
           | None => Panic
           | Some i => Ret tt (mkProcess (once p) (Some (mkConnector (client i) c)) (env p))
           end.

(** Reading [Instance.ctx]. *)
Definition Instance_ctx : M Process Context :=
  fun p => match Instance p with
           | None => Panic
           | Some i => Ret (ctx i) p
           end.

(** The [switch] inside [New], on the value [ct]. *)
Definition construct (ct : datatoreClientType)
    (datastoreEmulatorAddr gcloudCredentialsPath projectID : string)
    : M Process unit :=
  if ct =? EMULATOR then
    cx ← Instance_ctx;
    '(c, err) ← lift (datastore_NewClient cx projectID AmbientCredentials);
    set_Instance_client c;;
    fatal_if err;;
    lift (os_Setenv "DATASTORE_EMULATOR_HOST" datastoreEmulatorAddr)
  else if ct =? SIMPLE then
    cx ← Instance_ctx;
    '(c, err) ← lift (datastore_NewClient cx projectID AmbientCredentials);
    fatal_if err;;
    set_Instance_client c
  else if ct =? KEYFILE then
    '(jsonKey, err) ← lift (ioutil_ReadFile (path_Join gcloudCredentialsPath "keyfile.json"));
    fatal_if err;;
    '(conf, err) ← lift (google_JWTConfigFromJSON jsonKey);
    fatal_if err;;
    cx ← Instance_ctx;
    '(c, err) ← lift (datastore_NewClient cx projectID (TokenSource conf));
    fatal_if err;;
    set_Instance_client c
  else
    log_Fatal (FatalMsg "Unknown Datastore client").

Definition New (emulatorEnable : bool)
    (datastoreEmulatorAddr gcloudCredentialsPath projectID : string)
    : M Process (option datastoreConnector) :=
  once_Do (
    new_Instance;;
    set_Instance_ctx Background;;
    construct (getClientType emulatorEnable gcloudCredentialsPath)
      datastoreEmulatorAddr gcloudCredentialsPath projectID);;
  gets Instance.

Definition Delete (d : datastoreConnector) (key : Key) : M Env bool :=
  err ← Client_Delete (client d) (ctx d) key;
  let deleted := false in
  let deleted := if negb (is_nil err) then true else deleted in
  mret deleted.

(** [var clientType = [...]string{"SIMPLE", "EMULATOR", "KEYFILE"}] *)
Definition clientType : list string := ["SIMPLE"; "EMULATOR"; "KEYFILE"].

(** [func (c datatoreClientType) String() string { return clientType[c-1] }];
    [None] stands for the run-time panic of an index outside the array. *)
Definition String (c : datatoreClientType) : option string :=
  let i := GoInt.sub c 1 in
  if (i <? 0) || (Z.of_nat (length clientType) <=? i) then None
  else clientType !! Z.to_nat i.

(** Records are modelled by the one record type of the package. *)
Definition Save (d : datastoreConnector) (inboundKey : Key) (entity : BasicCounter)
    : M Backend (option Key * goerr) :=
  Client_Put (client d) (ctx d) inboundKey entity.

End DatastoreConnector.

(** ** datastoreAtomicConnector.go, second part: the basic connector with a
    collection name *)

Module DatastoreConnector2.

Definition datatoreClientType : Type := Z.

Definition SIMPLE : datatoreClientType := 1 + 0.
Definition EMULATOR : datatoreClientType := 1 + 1.
Definition KEYFILE : datatoreClientType := 1 + 2.

Definition getClientType (emulatorEnable : bool)
    (gcloudCredentialsPath : string) : datatoreClientType :=
  if emulatorEnable then EMULATOR
  else if negb (String.eqb gcloudCredentialsPath "") then KEYFILE
       else SIMPLE.

Record datastoreConnector : Type := mkConnector {
  client : option Client;
  ctx : Context;
  CollectionName : string
}.

Definition set_client (c : option Client) (i : datastoreConnector)
    : datastoreConnector :=
  mkConnector c (ctx i) (CollectionName i).

Definition New (emulatorEnable : bool)
    (datastoreEmulatorAddr gcloudCredentialsPath projectID CollectionName : string)
    : M Env datastoreConnector :=
  let Instance := mkConnector None Background CollectionName in
  let ct := getClientType emulatorEnable gcloudCredentialsPath in
  if ct =? EMULATOR then
    os_Setenv "DATASTORE_EMULATOR_HOST" datastoreEmulatorAddr;;
    '(c, err) ← datastore_NewClient (ctx Instance) projectID AmbientCredentials;
    let Instance := set_client c Instance in
    fatal_if err;;
    mret Instance
  else if ct =? SIMPLE then
    '(c, err) ← datastore_NewClient (ctx Instance) projectID AmbientCredentials;
    fatal_if err;;
    mret (set_client c Instance)
  else if ct =? KEYFILE then
    '(jsonKey, err) ← ioutil_ReadFile (path_Join gcloudCredentialsPath "keyfile.json");
    fatal_if err;;
    '(conf, err) ← google_JWTConfigFromJSON jsonKey;
    fatal_if err;;
    '(c, err) ← datastore_NewClient (ctx Instance) projectID (TokenSource conf);
    fatal_if err;;
    mret (set_client c Instance)
  else
    log_Fatal (FatalMsg "Unknown Datastore client").

Definition Delete (d : datastoreConnector) (entityID : string) : M Env bool :=
  let inboundKey := NameKey (CollectionName d) entityID in
  err ← Client_Delete (client d) (ctx d) inboundKey;
  let deleted := false in
  let deleted := if negb (is_nil err) then true else deleted in
  mret deleted.

(** [var clientType = [...]string{"SIMPLE", "EMULATOR", "KEYFILE"}] *)
Definition clientType : list string := ["SIMPLE"; "EMULATOR"; "KEYFILE"].

(** [func (c datatoreClientType) String() string { return clientType[c-1] }];
    [None] stands for the run-time panic of an index outside the array. *)
Definition String (c : datatoreClientType) : option string :=
  let i := GoInt.sub c 1 in
  if (i <? 0) || (Z.of_nat (length clientType) <=? i) then None
  else clientType !! Z.to_nat i.

(** Records are modelled by the one record type of the package. *)
Definition Save (d : datastoreConnector) (entityID : string) (entity : BasicCounter)
    : M Backend (option Key * goerr) :=
  let inboundKey := NameKey (CollectionName d) entityID in
  Client_Put (client d) (ctx d) inboundKey entity.

Definition Update (d : datastoreConnector) (entityID : string) (entity : BasicCounter)
    : M Backend (option Key * goerr) :=
  let inboundKey := NameKey (CollectionName d) entityID in
  Client_Put (client d) (ctx d) inboundKey entity.

(** Returns the destination as the call leaves it, and the error. *)
Definition Retrieve (d : datastoreConnector) (entityID : string) (dst : BasicCounter)
    : M Backend (BasicCounter * goerr) :=
  let inboundKey := NameKey (CollectionName d) entityID in
  Client_Get (client d) (ctx d) inboundKey dst.

End DatastoreConnector2.

(** ** datastoreAtomicConnector.go, first part: the atomic connector *)

Module AtomicConnector.

Import DatastoreConnector2.

Record datastoreAtomicConnector : Type := mkAtomic {
  client : option Client;
  ctx : Context;
  CollectionName : string
}.

Definition set_client (c : option Client) (i : datastoreAtomicConnector)
    : datastoreAtomicConnector :=
  mkAtomic c (ctx i) (CollectionName i).

Definition NewAtomicConnector (emulatorEnable : bool)
    (datastoreEmulatorAddr gcloudCredentialsPath projectID CollectionName : string)
    : M Env datastoreAtomicConnector :=
  let Instance := mkAtomic None Background CollectionName in
  let ct := getClientType emulatorEnable gcloudCredentialsPath in
  if ct =? EMULATOR then
    os_Setenv "DATASTORE_EMULATOR_HOST" datastoreEmulatorAddr;;
    '(c, err) ← datastore_NewClient (ctx Instance) projectID AmbientCredentials;
    let Instance := set_client c Instance in
    fatal_if err;;
    mret Instance
  else if ct =? SIMPLE then
    '(c, err) ← datastore_NewClient (ctx Instance) projectID AmbientCredentials;
    fatal_if err;;
    mret (set_client c Instance)
  else if ct =? KEYFILE then
    '(jsonKey, err) ← ioutil_ReadFile (path_Join gcloudCredentialsPath "keyfile.json");
    fatal_if err;;
    '(conf, err) ← google_JWTConfigFromJSON jsonKey;
    fatal_if err;;
    '(c, err) ← datastore_NewClient (ctx Instance) projectID (TokenSource conf);
    fatal_if err;;
    mret (set_client c Instance)
  else
    log_Fatal (FatalMsg "Unknown Datastore client").

Definition IncrementCounter (d : datastoreAtomicConnector) (entityID : string)
    (incrementAmount : Z) : M Env bool :=
  '(t, err) ← Client_NewTransaction (client d) (ctx d);
  let inboundKey := NameKey (CollectionName d) entityID in
  let counter := mkCounter 0 in
  '(counter, err) ← Transaction_Get t inboundKey counter;
  '(counter, err) ←
    (if is_nil err || is_ErrNoSuchEntity err then
       let counter := mkCounter (GoInt.add (Amount counter) incrementAmount) in
       err ← Transaction_Put t inboundKey counter;
       err ← Transaction_Commit t;
       mret (counter, err)
     else mret (counter, err));
  let success := false in
  let success := if is_nil err then true else success in
  mret success.

Definition DecrementCounter (d : datastoreAtomicConnector) (entityID : string)
    (decrementAmount : Z) : M Env bool :=
  '(t, err) ← Client_NewTransaction (client d) (ctx d);
  let inboundKey := NameKey (CollectionName d) entityID in
  let counter := mkCounter 0 in
  '(counter, err) ← Transaction_Get t inboundKey counter;
  '(counter, err) ←
    (if is_nil err || is_ErrNoSuchEntity err then
       let counter := mkCounter (GoInt.sub (Amount counter) decrementAmount) in
       let counter := if Amount counter <? 0 then mkCounter 0 else counter in
       err ← Transaction_Put t inboundKey counter;
       err ← Transaction_Commit t;
       mret (counter, err)
     else mret (counter, err));
  let success := false in
  let success := if is_nil err then true else success in
  mret success.

Definition Count (d : datastoreAtomicConnector) (entityID : string) : M Env Z :=
  '(t, err) ← Client_NewTransaction (client d) (ctx d);
  let inboundKey := NameKey (CollectionName d) entityID in
  let counter := mkCounter 0 in
  '(counter, err) ← Transaction_Get t inboundKey counter;
  err ← Transaction_Commit t;
  let amount := 0 in
  let amount := if negb (is_nil err) then 0 else amount in
  let amount := if is_nil err then Amount counter else amount in
  mret amount.

End AtomicConnector.

(** ** Observations, call sequences and the arithmetic the specification
    speaks of *)

(** The amount on record under [key]; a counter that was never written
    counts as 0. *)
Definition amount_at (st : gmap Key BasicCounter) (key : Key) : Z :=
  match st !! key with
  | Some c => Amount c
  | None => 0
  end.

(** The oracle of a store that serves a transaction without any error.
    The error result of [NewTransaction] is left free. *)
Definition healthy (o : Oracle) : Prop :=
  fst (new_transaction o) = liveTransaction /\
  tx_get_err o = None /\ tx_put_err o = None /\ tx_commit_err o = None.

(** The same oracle with other error results for [NewTransaction] and for
    the transactional [Put]. *)
Definition override_errs (open_err put_err : goerr) (o : Oracle) : Oracle :=
  mkOracle (new_client_err o) (jwt_config_err o)
    (fst (new_transaction o), open_err)
    (tx_get_err o) put_err (tx_commit_err o) (delete_err o).

(** [err == nil || err == datastore.ErrNoSuchEntity] *)
Definition read_passes (err : goerr) : bool := is_nil err || is_ErrNoSuchEntity err.

Inductive call : Type :=
  | Increment (delta : Z)
  | Decrement (delta : Z).

Definition delta_of (c : call) : Z :=
  match c with Increment delta => delta | Decrement delta => delta end.

Definition signed_delta (c : call) : Z :=
  match c with Increment delta => delta | Decrement delta => - delta end.

Definition signed_sum (cs : list call) : Z :=
  foldr (fun c acc => signed_delta c + acc) 0 cs.

(** The sum of the increments alone. *)
Definition increments (cs : list call) : Z :=
  foldr (fun c acc => match c with Increment delta => delta + acc | Decrement _ => acc end) 0 cs.

(** The lowest value the running sum of the signed deltas takes from
    [low] on, the running sum standing at [sum]. *)
Fixpoint running_low (sum low : Z) (cs : list call) : Z :=
  match cs with
  | [] => low
  | c :: cs => running_low (sum + signed_delta c) (Z.min low (sum + signed_delta c)) cs
  end.

(** The lowest running sum of a sequence, the empty prefix included. *)
Definition lowest (cs : list call) : Z := running_low 0 0 cs.

(** The rule of each operation on unbounded integers, as the specification
    words it. *)
Definition step_amount (a : Z) (c : call) : Z :=
  match c with
  | Increment delta => a + delta
  | Decrement delta => Z.max 0 (a - delta)
  end.

Definition fold_amount (a : Z) (cs : list call) : Z := foldl step_amount a cs.

(** The state a committed write of [a] under [key] leaves behind. *)
Definition written (key : Key) (a : Z) (e : Env) : Env :=
  with_pending (fun _ => [])
    (with_store <[key := mkCounter a]> (with_pending (fun _ => []) e)).

Module Runs.

Import AtomicConnector.

Definition perform (d : datastoreAtomicConnector) (entityID : string) (c : call)
    : M Env bool :=
  match c with
  | Increment delta => IncrementCounter d entityID delta
  | Decrement delta => DecrementCounter d entityID delta
  end.

(** Performs the calls one after the other; for each, the success it
    reported and the amount on record once it returned. *)
Fixpoint perform_all (d : datastoreAtomicConnector) (entityID : string)
    (cs : list call) : M Env (list (bool * Z)) :=
  match cs with
  | [] => mret []
  | c :: cs =>
      ok ← perform d entityID c;
      a ← gets (fun e => amount_at (store e) (NameKey (CollectionName d) entityID));
      rest ← perform_all d entityID cs;
      mret ((ok, a) :: rest)
  end.

(** One call of [New]: its arguments and what the collaborators answer
    while it runs. *)
Record New_call : Type := mkNewCall {
  emulatorEnable : bool;
  datastoreEmulatorAddr : string;
  gcloudCredentialsPath : string;
  projectID : string;
  answers : Oracle
}.

Fixpoint New_all (calls : list New_call)
    : M DatastoreConnector.Process (list (option DatastoreConnector.datastoreConnector)) :=
  match calls with
  | [] => mret []
  | c :: calls =>
      DatastoreConnector.lift (modify (with_oracle (answers c)));;
      r ← DatastoreConnector.New (emulatorEnable c) (datastoreEmulatorAddr c)
            (gcloudCredentialsPath c) (projectID c);
      rest ← New_all calls;
      mret (r :: rest)
  end.

(** Two calls of [New] with different arguments, on collaborators that
    answer without error. *)
Definition two_calls : list New_call :=
  [mkNewCall false "" "" "project" no_faults;
   mkNewCall true "localhost:8081" "/etc/keys" "other" no_faults].

(** Two calls of [NewAtomicConnector] in a row, with the same arguments. *)
Definition NewAtomicConnector_twice (emulatorEnable : bool)
    (datastoreEmulatorAddr gcloudCredentialsPath projectID CollectionName : string)
    : M Env (datastoreAtomicConnector * datastoreAtomicConnector) :=
  d1 ← NewAtomicConnector emulatorEnable datastoreEmulatorAddr gcloudCredentialsPath
         projectID CollectionName;
  d2 ← NewAtomicConnector emulatorEnable datastoreEmulatorAddr gcloudCredentialsPath
         projectID CollectionName;
  mret (d1, d2).

(** The amount on record after a sequence of calls, if all of them
    returned. *)
Definition amount_after (d : datastoreAtomicConnector) (entityID : string)
    (cs : list call) (e : Env) : option Z :=
  e' ← final (perform_all d entityID cs e);
  Some (amount_at (store e') (NameKey (CollectionName d) entityID)).

(** What the specification promises of a sequence of calls: every call
    returns, the amount on record after each call is non-negative, and the
    amount at the end is [max(0, sum of the signed deltas)]. *)
Definition clamped_sum_promise (d : datastoreAtomicConnector) (entityID : string)
    (cs : list call) (e : Env) : Prop :=
  exists rs e',
    perform_all d entityID cs e = Ret rs e' /\
    Forall (fun r => 0 <= snd r) rs /\
    amount_at (store e') (NameKey (CollectionName d) entityID) = Z.max 0 (signed_sum cs).

End Runs.

(** An environment with nothing stored, no client constructed yet, and a
    store that answers every call without error. *)
Definition fresh_env : Env := mkEnv ∅ [] ∅ ∅ [] no_faults.

(** The same environment with other answers from the collaborators. *)
Definition fresh_env_with (o : Oracle) : Env := with_oracle o fresh_env.

(** The environment in which the counter ["a"] of the collection
    ["counters"] stands at [amount], with the answers [o] from the
    collaborators. *)
Definition env_with_amount (amount : Z) (o : Oracle) : Env :=
  mkEnv {[ NameKey "counters" "a" := mkCounter amount ]} [] ∅ ∅ [] o.

(** The success both counter operations report, read off the answers of
    the collaborators: it mentions neither the error of [NewTransaction]
    nor that of [Put]. *)
Definition reported_success (cl : option Client) (o : Oracle) : option bool :=
  match cl, fst (new_transaction o) with
  | Some _, liveTransaction => Some (read_passes (tx_get_err o) && is_nil (tx_commit_err o))
  | _, _ => None
  end.

(** A store whose transactional [Put] fails while everything else works. *)
Definition put_fails : Oracle :=
  mkOracle None None (liveTransaction, None) None (Some (ErrOther "put failed")) None None.

(** A store on which no transaction can be opened. *)
Definition open_fails : Oracle :=
  mkOracle None None (nilTransaction, Some (ErrOther "open failed")) None None None None.

(** A connector over a client, for the collection ["counters"]. *)
Definition a_client : Client := mkClient 0 "project" None AmbientCredentials.
Definition counters : AtomicConnector.datastoreAtomicConnector :=
  AtomicConnector.mkAtomic (Some a_client) Background "counters".

(** A store whose commit fails while everything else works. *)
Definition commit_fails : Oracle :=
  mkOracle None None (liveTransaction, None) None None (Some (ErrOther "commit failed")) None.

(** A store that answers the calls outside a transaction without error. *)
Definition quiet : ClientAnswers := mkClientAnswers None None.

(** A basic connector over the same client, for the same collection. *)
Definition entities : DatastoreConnector2.datastoreConnector :=
  DatastoreConnector2.mkConnector (Some a_client) Background "counters".

(** The two factories of datastoreAtomicConnector.go side by side: what a
    connector of either kind is made of. *)
Definition parts_of_atomic (d : AtomicConnector.datastoreAtomicConnector)
    : option Client * Context * string :=
  (AtomicConnector.client d, AtomicConnector.ctx d, AtomicConnector.CollectionName d).

Definition parts_of_basic (d : DatastoreConnector2.datastoreConnector)
    : option Client * Context * string :=
  (DatastoreConnector2.client d, DatastoreConnector2.ctx d, DatastoreConnector2.CollectionName d).

(** The outcome of a call with its value mapped through [f]. *)
Definition map_outcome {S A B} (f : A -> B) (o : outcome S A) : outcome S B :=
  match o with
  | Ret a s => Ret (f a) s
  | Panic => Panic
  | Fatal e => Fatal e
  end.

(** The emulator a client talks to, if any: the library takes the host it
    read from the environment for the emulator's address unless that host
    is empty. *)
Definition emulator_of (h : Client) : option string :=
  match client_host h with
  | Some host => if String.eqb host "" then None else Some host
  | None => None
  end.

(** The state a [Put] of [entity] under [key] outside a transaction leaves
    behind. *)
Definition saved (key : Key) (entity : BasicCounter) (b : Backend) : Backend :=
  mkBackend (with_store <[key := entity]> (backend_env b)) (backend_answers b).

(** A basic connector for another collection. *)
Definition others : DatastoreConnector2.datastoreConnector :=
  DatastoreConnector2.mkConnector (Some a_client) Background "others".

(** * Properties *)

(** ** Go's [int] *)

Lemma wrap_in_range z : GoInt.in_range (GoInt.wrap z).
Proof.
  unfold GoInt.in_range, GoInt.wrap, GoInt.min_int, GoInt.max_int, GoInt.int_size.
  pose proof (Z.mod_pos_bound (z - - 2 ^ (64 - 1)) (2 ^ 64) ltac:(lia)).
  change (2 ^ 64) with 18446744073709551616 in *.
  change (2 ^ (64 - 1)) with 9223372036854775808 in *. lia.
Qed.

Lemma wrap_small z : GoInt.in_range z -> GoInt.wrap z = z.
Proof.
  unfold GoInt.in_range, GoInt.wrap, GoInt.min_int, GoInt.max_int, GoInt.int_size.
  change (2 ^ 64) with 18446744073709551616 in *.
  change (2 ^ (64 - 1)) with 9223372036854775808 in *.
  intros H. rewrite Z.mod_small; lia.
Qed.

(** ** One transaction against a healthy store *)

Ltac unfold_monad :=
  unfold mbind, M_bind, mret, M_ret, gets, modify, panic, log_Fatal in *.

Ltac run_tx :=
  unfold Transaction_Get, Transaction_Put, Transaction_Commit,
    Client_NewTransaction, Client_Delete; unfold_monad; simpl.

Section Healthy.

Import AtomicConnector.

Variables (d : datastoreAtomicConnector) (c : Client) (entityID : string).
Hypothesis Hclient : client d = Some c.

Lemma IncrementCounter_healthy delta e :
  healthy (oracle e) ->
  IncrementCounter d entityID delta e
  = Ret true (written (NameKey (CollectionName d) entityID)
                (GoInt.add (amount_at (store e) (NameKey (CollectionName d) entityID)) delta) e).
Proof.
  intros (Hlive & Hget & Hput & Hcommit).
  unfold IncrementCounter, amount_at, written. rewrite Hclient.
  destruct e as [st q env fs cl o]; simpl in *.
  destruct (new_transaction o) as [t oe] eqn:Hnt; simpl in Hlive; subst t.
  run_tx. rewrite Hnt; simpl. rewrite Hget.
  destruct (st !! _) as [r|]; simpl; rewrite Hput; simpl; rewrite Hcommit; reflexivity.
Qed.

Lemma DecrementCounter_healthy delta e :
  healthy (oracle e) ->
  DecrementCounter d entityID delta e
  = Ret true (written (NameKey (CollectionName d) entityID)
                (let a := GoInt.sub (amount_at (store e) (NameKey (CollectionName d) entityID)) delta in
                 if a <? 0 then 0 else a) e).
Proof.
  intros (Hlive & Hget & Hput & Hcommit).
  unfold DecrementCounter, amount_at, written. rewrite Hclient.
  destruct e as [st q env fs cl o]; simpl in *.
  destruct (new_transaction o) as [t oe] eqn:Hnt; simpl in Hlive; subst t.
  run_tx. rewrite Hnt; simpl. rewrite Hget.
  destruct (st !! _) as [r|]; simpl; rewrite Hput; simpl; rewrite Hcommit; simpl.
  - destruct (GoInt.sub (Amount r) delta <? 0); reflexivity.
  - destruct (GoInt.sub 0 delta <? 0); reflexivity.
Qed.

Lemma amount_at_written key a e : amount_at (store (written key a e)) key = a.
Proof. unfold amount_at, written; simpl. by rewrite lookup_insert_eq. Qed.

Lemma oracle_written key a e : oracle (written key a e) = oracle e.
Proof. reflexivity. Qed.

(** On a healthy store, with the amount and the delta such that Go's [int]
    does not overflow, one call applies the rule of its operation. *)
Lemma perform_healthy cl e :
  healthy (oracle e) ->
  0 <= amount_at (store e) (NameKey (CollectionName d) entityID) ->
  0 <= delta_of cl <= GoInt.max_int ->
  amount_at (store e) (NameKey (CollectionName d) entityID) + signed_delta cl <= GoInt.max_int ->
  Runs.perform d entityID cl e
  = Ret true (written (NameKey (CollectionName d) entityID)
                (step_amount (amount_at (store e) (NameKey (CollectionName d) entityID)) cl) e).
Proof.
  intros Hh Ha Hd Hmax. destruct cl as [delta|delta]; simpl in *.
  - rewrite IncrementCounter_healthy by assumption. f_equal. f_equal.
    apply wrap_small. unfold GoInt.in_range, GoInt.min_int, GoInt.max_int, GoInt.int_size in *.
    simpl in *. lia.
  - rewrite DecrementCounter_healthy by assumption. f_equal. f_equal.
    cbv zeta. unfold GoInt.sub. rewrite wrap_small.
    + destruct (Z.ltb_spec (amount_at (store e) (NameKey (CollectionName d) entityID) - delta) 0); lia.
    + unfold GoInt.in_range, GoInt.min_int, GoInt.max_int, GoInt.int_size in *.
      simpl in *. lia.
Qed.

End Healthy.

(** ** Sequences of calls: the arithmetic *)

Lemma running_low_le sum low cs : running_low sum low cs <= low.
Proof.
  revert sum low. induction cs as [|c cs IH]; intros sum low; simpl; [lia|].
  specialize (IH (sum + signed_delta c) (Z.min low (sum + signed_delta c))). lia.
Qed.

Lemma running_low_le_sum sum low cs :
  low <= sum -> running_low sum low cs <= sum + signed_sum cs.
Proof.
  revert sum low. induction cs as [|c cs IH]; intros sum low Hle; simpl; [lia|].
  specialize (IH (sum + signed_delta c) (Z.min low (sum + signed_delta c))). lia.
Qed.

(** The amount after a sequence of non-negative increments and decrements
    is the running sum measured from its lowest point. *)
Lemma fold_amount_running sum low cs :
  low <= sum ->
  Forall (fun c => 0 <= delta_of c) cs ->
  fold_amount (sum - low) cs = sum + signed_sum cs - running_low sum low cs.
Proof.
  unfold fold_amount. revert sum low.
  induction cs as [|c cs IH]; intros sum low Hle Hpos; simpl; [lia|].
  inversion Hpos as [|? ? Hc Hcs]; subst.
  replace (step_amount (sum - low) c)
    with ((sum + signed_delta c) - Z.min low (sum + signed_delta c)).
  - rewrite IH by (assumption || lia). lia.
  - destruct c as [delta|delta]; simpl in *; lia.
Qed.

Lemma fold_amount_nonneg a cs :
  0 <= a -> Forall (fun c => 0 <= delta_of c) cs -> 0 <= fold_amount a cs.
Proof.
  unfold fold_amount. revert a.
  induction cs as [|c cs IH]; intros a Ha Hpos; simpl; [lia|].
  inversion Hpos as [|? ? Hc Hcs]; subst. apply IH; [|assumption].
  destruct c; simpl in *; lia.
Qed.

Lemma increments_nonneg cs :
  Forall (fun c => 0 <= delta_of c) cs -> 0 <= increments cs.
Proof.
  induction 1 as [|c cs Hc _ IH]; simpl; [lia|]. destruct c; simpl in *; lia.
Qed.

(** ** Sequences of calls against a healthy store *)

Lemma perform_all_healthy (d : AtomicConnector.datastoreAtomicConnector)
    (c : Client) (entityID : string) (cs : list call) :
  AtomicConnector.client d = Some c ->
  forall e,
  healthy (oracle e) ->
  0 <= amount_at (store e) (NameKey (AtomicConnector.CollectionName d) entityID) ->
  Forall (fun c => 0 <= delta_of c <= GoInt.max_int) cs ->
  amount_at (store e) (NameKey (AtomicConnector.CollectionName d) entityID)
    + increments cs <= GoInt.max_int ->
  exists rs e',
    Runs.perform_all d entityID cs e = Ret rs e' /\
    length rs = length cs /\
    Forall (fun r => fst r = true /\ 0 <= snd r) rs /\
    amount_at (store e') (NameKey (AtomicConnector.CollectionName d) entityID)
    = fold_amount (amount_at (store e) (NameKey (AtomicConnector.CollectionName d) entityID)) cs.
Proof.
  intros Hclient. induction cs as [|cl cs IH]; intros e Hh Ha Hd Hmax.
  - exists [], e. repeat split; constructor.
  - inversion Hd as [|? ? Hcl Hcs]; subst.
    assert (Hinc : 0 <= increments cs).
    { apply increments_nonneg. eapply Forall_impl; [exact Hcs|]. simpl; lia. }
    assert (Hstep : amount_at (store e) (NameKey (AtomicConnector.CollectionName d) entityID)
                    + signed_delta cl <= GoInt.max_int).
    { destruct cl; simpl in *; lia. }
    pose proof (perform_healthy d c entityID Hclient cl e Hh Ha Hcl Hstep) as Hrun.
    set (a' := step_amount _ cl) in Hrun.
    assert (Ha' : 0 <= a') by (subst a'; destruct cl; simpl in *; lia).
    destruct (IH (written (NameKey (AtomicConnector.CollectionName d) entityID) a' e))
      as (rs & e' & Hrs & Hlen & Hall & Hfin).
    + exact Hh.
    + rewrite amount_at_written. exact Ha'.
    + exact Hcs.
    + rewrite amount_at_written. subst a'. destruct cl; simpl in *; lia.
    + exists ((true, a') :: rs), e'. simpl.
      unfold_monad. rewrite Hrun. rewrite amount_at_written. rewrite Hrs.
      repeat split.
      * simpl. congruence.
      * constructor; [split; [reflexivity | exact Ha'] | exact Hall].
      * rewrite Hfin, amount_at_written. reflexivity.
Qed.

(** C1, as amended.  On a store that serves every transaction without error,
    starting from a counter that does not exist yet, for calls whose deltas
    are non-negative Go [int]s and whose increments add up to at most the
    largest [int]: every call reports success, the amount on record after
    each call is non-negative, and the amount at the end is the one obtained
    by applying each operation's own rule in turn ([a + delta] for an
    increment, [max(0, a - delta)] for a decrement).  That amount is the sum
    of the signed deltas less the lowest value their running sum took (at
    most 0); it is at least [max(0, sum)], and equal to it exactly when the
    running sum never went below [min(0, sum)]. *)
Theorem amount_after_calls (d : AtomicConnector.datastoreAtomicConnector)
    (c : Client) (entityID : string) (cs : list call) (e : Env) :
  AtomicConnector.client d = Some c ->
  healthy (oracle e) ->
  store e !! NameKey (AtomicConnector.CollectionName d) entityID = None ->
  Forall (fun c => 0 <= delta_of c <= GoInt.max_int) cs ->
  increments cs <= GoInt.max_int ->
  exists rs e',
    Runs.perform_all d entityID cs e = Ret rs e' /\
    length rs = length cs /\
    Forall (fun r => fst r = true /\ 0 <= snd r) rs /\
    let amount := amount_at (store e') (NameKey (AtomicConnector.CollectionName d) entityID) in
    amount = fold_amount 0 cs /\
    amount = signed_sum cs - lowest cs /\
    Z.max 0 (signed_sum cs) <= amount /\
    (amount = Z.max 0 (signed_sum cs) <-> lowest cs = Z.min 0 (signed_sum cs)).
Proof.
  intros Hclient Hh Hnew Hd Hmax.
  assert (Hzero : amount_at (store e) (NameKey (AtomicConnector.CollectionName d) entityID) = 0).
  { unfold amount_at. by rewrite Hnew. }
  destruct (perform_all_healthy d c entityID cs Hclient e Hh) as (rs & e' & Hrun & Hlen & Hall & Hfin).
  - lia.
  - exact Hd.
  - lia.
  - exists rs, e'. rewrite Hzero in Hfin.
    assert (Hlow : fold_amount 0 cs = signed_sum cs - lowest cs).
    { change 0 with (0 - 0) at 1. unfold lowest. rewrite fold_amount_running.
      - lia.
      - lia.
      - eapply Forall_impl; [exact Hd|]. simpl; lia. }
    pose proof (running_low_le 0 0 cs) as Hle0.
    pose proof (running_low_le_sum 0 0 cs ltac:(lia)) as Hles.
    fold (lowest cs) in Hle0, Hles.
    repeat split; try assumption; cbv zeta; rewrite Hfin; lia.
Qed.

Lemma amount_after_calls_witness :
  exists rs e',
    Runs.perform_all counters "a" [Increment 2; Decrement 5; Increment 3] fresh_env = Ret rs e' /\
    length rs = 3%nat /\
    Forall (fun r => fst r = true /\ 0 <= snd r) rs /\
    let amount := amount_at (store e') (NameKey "counters" "a") in
    amount = fold_amount 0 [Increment 2; Decrement 5; Increment 3] /\
    amount = signed_sum [Increment 2; Decrement 5; Increment 3]
             - lowest [Increment 2; Decrement 5; Increment 3] /\
    Z.max 0 (signed_sum [Increment 2; Decrement 5; Increment 3]) <= amount /\
    (amount = Z.max 0 (signed_sum [Increment 2; Decrement 5; Increment 3])
     <-> lowest [Increment 2; Decrement 5; Increment 3]
         = Z.min 0 (signed_sum [Increment 2; Decrement 5; Increment 3])).
Proof.
  apply (amount_after_calls counters a_client "a"
           [Increment 2; Decrement 5; Increment 3] fresh_env).
  - reflexivity.
  - repeat split; reflexivity.
  - reflexivity.
  - repeat constructor; simpl; try lia; vm_compute; discriminate.
  - vm_compute; discriminate.
Defined.

(** C1, as stated, fails.  An increment by -1 of a new counter leaves -1 on
    record; a decrement by 5 followed by an increment by 3 leaves 3, not
    [max(0, -5 + 3) = 0]; and two non-negative increments that overflow
    Go's [int] leave a negative amount. *)
Lemma clamped_sum_promise_fails :
  (Runs.amount_after counters "a" [Increment (-1)] fresh_env = Some (-1) /\
   ~ Runs.clamped_sum_promise counters "a" [Increment (-1)] fresh_env) /\
  (Runs.amount_after counters "a" [Decrement 5; Increment 3] fresh_env = Some 3 /\
   Z.max 0 (signed_sum [Decrement 5; Increment 3]) = 0 /\
   ~ Runs.clamped_sum_promise counters "a" [Decrement 5; Increment 3] fresh_env) /\
  (Runs.amount_after counters "a" [Increment GoInt.max_int; Increment 1] fresh_env
   = Some GoInt.min_int /\
   ~ Runs.clamped_sum_promise counters "a" [Increment GoInt.max_int; Increment 1] fresh_env).
Proof.
  assert (H1 : Runs.amount_after counters "a" [Increment (-1)] fresh_env = Some (-1))
    by (vm_compute; reflexivity).
  assert (H2 : Runs.amount_after counters "a" [Decrement 5; Increment 3] fresh_env = Some 3)
    by (vm_compute; reflexivity).
  assert (H3 : Runs.amount_after counters "a" [Increment GoInt.max_int; Increment 1] fresh_env
               = Some GoInt.min_int)
    by (vm_compute; reflexivity).
  repeat split; try assumption; try reflexivity.
  - intros (rs & e' & Hrun & _ & Hfin).
    unfold Runs.amount_after in H1. rewrite Hrun in H1. simpl in *.
    rewrite Hfin in H1. discriminate.
  - intros (rs & e' & Hrun & _ & Hfin).
    unfold Runs.amount_after in H2. rewrite Hrun in H2. simpl in *.
    rewrite Hfin in H2. discriminate.
  - intros (rs & e' & Hrun & _ & Hfin).
    unfold Runs.amount_after in H3. rewrite Hrun in H3. simpl in *.
    rewrite Hfin in H3. vm_compute in H3. discriminate.
Qed.

(** ** The counter operations *)

(** A decrement that stays within Go's [int] writes [max(0, amount - delta)]. *)
Lemma DecrementCounter_in_range (d : AtomicConnector.datastoreAtomicConnector)
    (c : Client) (entityID : string) (delta : Z) (e : Env) :
  AtomicConnector.client d = Some c ->
  healthy (oracle e) ->
  0 <= delta <= GoInt.max_int ->
  GoInt.min_int + delta
    <= amount_at (store e) (NameKey (AtomicConnector.CollectionName d) entityID)
    <= GoInt.max_int ->
  exists e',
    AtomicConnector.DecrementCounter d entityID delta e = Ret true e' /\
    store e' = <[ NameKey (AtomicConnector.CollectionName d) entityID :=
                    mkCounter (Z.max 0 (amount_at (store e)
                      (NameKey (AtomicConnector.CollectionName d) entityID) - delta)) ]> (store e) /\
    0 <= amount_at (store e') (NameKey (AtomicConnector.CollectionName d) entityID).
Proof.
  intros Hclient Hh Hd Ha.
  rewrite (DecrementCounter_healthy d c entityID Hclient delta e Hh).
  eexists; split; [reflexivity|].
  cbv zeta. unfold GoInt.sub. rewrite wrap_small.
  - replace (if _ <? 0 then 0 else _)
      with (Z.max 0 (amount_at (store e) (NameKey (AtomicConnector.CollectionName d) entityID) - delta)).
    + split; [reflexivity|]. rewrite amount_at_written. lia.
    + destruct (Z.ltb_spec (amount_at (store e) (NameKey (AtomicConnector.CollectionName d) entityID) - delta) 0); lia.
  - unfold GoInt.in_range in *. lia.
Qed.

(** C2, as amended.  With a non-negative delta, on a store that serves the
    transaction without error and an amount on record from which the delta
    can be taken without leaving Go's [int] (every non-negative amount is
    such), [DecrementCounter] writes [max(0, amount - delta)] and reports
    success: the amount on record afterwards is never negative, and a delta
    larger than the amount is no failure. *)
Theorem DecrementCounter_clamps (d : AtomicConnector.datastoreAtomicConnector)
    (c : Client) (entityID : string) (delta : Z) (e : Env) :
  AtomicConnector.client d = Some c ->
  healthy (oracle e) ->
  0 <= delta <= GoInt.max_int ->
  GoInt.min_int + delta
    <= amount_at (store e) (NameKey (AtomicConnector.CollectionName d) entityID)
    <= GoInt.max_int ->
  exists e',
    AtomicConnector.DecrementCounter d entityID delta e = Ret true e' /\
    store e' = <[ NameKey (AtomicConnector.CollectionName d) entityID :=
                    mkCounter (Z.max 0 (amount_at (store e)
                      (NameKey (AtomicConnector.CollectionName d) entityID) - delta)) ]> (store e) /\
    0 <= amount_at (store e') (NameKey (AtomicConnector.CollectionName d) entityID).
Proof. apply DecrementCounter_in_range. Qed.

Lemma DecrementCounter_clamps_witness :
  exists e',
    AtomicConnector.DecrementCounter counters "a" 100 (env_with_amount 3 no_faults) = Ret true e' /\
    store e' = <[ NameKey "counters" "a" :=
                    mkCounter (Z.max 0 (amount_at (store (env_with_amount 3 no_faults))
                                          (NameKey "counters" "a") - 100)) ]>
                 (store (env_with_amount 3 no_faults)) /\
    0 <= amount_at (store e') (NameKey "counters" "a").
Proof.
  apply (DecrementCounter_clamps counters a_client "a" 100 (env_with_amount 3 no_faults)).
  - reflexivity.
  - repeat split; reflexivity.
  - vm_compute; split; discriminate.
  - vm_compute; split; discriminate.
Defined.

(** C2, as stated, fails.  An increment by -4 of a new counter leaves -4 on
    record; a decrement by the largest Go [int], a non-negative delta,
    then reports success and leaves 9223372036854775805 on record, where
    [max(0, -4 - delta)] is 0: the subtraction wrapped around before the
    test against 0. *)
Lemma DecrementCounter_underflow_wraps :
  Runs.amount_after counters "a" [Increment (-4)] fresh_env = Some (-4) /\
  returned (AtomicConnector.DecrementCounter counters "a" GoInt.max_int
              (env_with_amount (-4) no_faults)) = Some true /\
  Runs.amount_after counters "a" [Decrement GoInt.max_int] (env_with_amount (-4) no_faults)
  = Some 9223372036854775805 /\
  Runs.amount_after counters "a" [Increment (-4); Decrement GoInt.max_int] fresh_env
  = Some 9223372036854775805 /\
  0 <= GoInt.max_int /\
  Z.max 0 (-4 - GoInt.max_int) = 0.
Proof.
  repeat split; vm_compute; try reflexivity; discriminate.
Qed.

(** C9.  On a store that serves the transaction without error, a decrement
    by a non-negative delta of a counter that has no record creates the
    record, with amount 0, and reports success. *)
Theorem DecrementCounter_creates (d : AtomicConnector.datastoreAtomicConnector)
    (c : Client) (entityID : string) (delta : Z) (e : Env) :
  AtomicConnector.client d = Some c ->
  healthy (oracle e) ->
  0 <= delta <= GoInt.max_int ->
  store e !! NameKey (AtomicConnector.CollectionName d) entityID = None ->
  exists e',
    AtomicConnector.DecrementCounter d entityID delta e = Ret true e' /\
    store e' = <[ NameKey (AtomicConnector.CollectionName d) entityID := mkCounter 0 ]> (store e) /\
    store e' !! NameKey (AtomicConnector.CollectionName d) entityID = Some (mkCounter 0).
Proof.
  intros Hclient Hh Hd Hnew.
  assert (Hzero : amount_at (store e) (NameKey (AtomicConnector.CollectionName d) entityID) = 0).
  { unfold amount_at. by rewrite Hnew. }
  destruct (DecrementCounter_in_range d c entityID delta e Hclient Hh Hd) as (e' & Hrun & Hst & _).
  - rewrite Hzero. unfold GoInt.min_int, GoInt.max_int, GoInt.int_size in *. simpl in *. lia.
  - exists e'. rewrite Hzero in Hst. replace (Z.max 0 (0 - delta)) with 0 in Hst by lia.
    repeat split; [exact Hrun | exact Hst |]. rewrite Hst. apply lookup_insert_eq.
Qed.

Lemma DecrementCounter_creates_witness :
  exists e',
    AtomicConnector.DecrementCounter counters "a" 7 fresh_env = Ret true e' /\
    store e' = <[ NameKey "counters" "a" := mkCounter 0 ]> (store fresh_env) /\
    store e' !! NameKey "counters" "a" = Some (mkCounter 0).
Proof.
  apply (DecrementCounter_creates counters a_client "a" 7 fresh_env).
  - reflexivity.
  - repeat split; reflexivity.
  - vm_compute; split; discriminate.
  - reflexivity.
Defined.

(** C4, at the input where the code departs from it.  When no transaction
    can be opened, [Count] does not return 0: the error of [NewTransaction]
    is never looked at, the read is attempted on the nil transaction, and
    the call panics, whether or not the counter has a record. *)
Lemma Count_panics_on_failed_open :
  AtomicConnector.Count counters "a" (env_with_amount 3 open_fails) = Panic /\
  AtomicConnector.Count counters "a" (fresh_env_with open_fails) = Panic.
Proof.
  split; vm_compute; reflexivity.
Qed.

(** C8.  The success that [IncrementCounter] and [DecrementCounter] report
    is settled by whether the read returned nil or not-found and, if so, by
    the result of the commit; the errors returned by [NewTransaction] and by
    [Put] have no part in it: with any other two errors in their place, both
    operations report the same. *)
Theorem success_ignores_open_and_put_errors
    (d : AtomicConnector.datastoreAtomicConnector) (entityID : string)
    (delta : Z) (e : Env) (open_err put_err : goerr) :
  returned (AtomicConnector.IncrementCounter d entityID delta e)
  = reported_success (AtomicConnector.client d) (oracle e) /\
  returned (AtomicConnector.DecrementCounter d entityID delta e)
  = reported_success (AtomicConnector.client d) (oracle e) /\
  returned (AtomicConnector.IncrementCounter d entityID delta
              (with_oracle (override_errs open_err put_err (oracle e)) e))
  = returned (AtomicConnector.IncrementCounter d entityID delta e) /\
  returned (AtomicConnector.DecrementCounter d entityID delta
              (with_oracle (override_errs open_err put_err (oracle e)) e))
  = returned (AtomicConnector.DecrementCounter d entityID delta e).
Proof.
  assert (Hinc : forall e0, returned (AtomicConnector.IncrementCounter d entityID delta e0)
                            = reported_success (AtomicConnector.client d) (oracle e0)).
  { intros e0. unfold AtomicConnector.IncrementCounter, reported_success.
    destruct (AtomicConnector.client d) as [cl|]; [|reflexivity].
    destruct e0 as [st q env fs cls o]; simpl.
    run_tx. destruct (new_transaction o) as [[|] oe]; simpl; [reflexivity|].
    destruct (tx_get_err o) as [[|msg]|]; simpl;
      try destruct (st !! _); simpl;
      try destruct (tx_put_err o); simpl;
      destruct (tx_commit_err o); reflexivity. }
  assert (Hdec : forall e0, returned (AtomicConnector.DecrementCounter d entityID delta e0)
                            = reported_success (AtomicConnector.client d) (oracle e0)).
  { intros e0. unfold AtomicConnector.DecrementCounter, reported_success.
    destruct (AtomicConnector.client d) as [cl|]; [|reflexivity].
    destruct e0 as [st q env fs cls o]; simpl.
    run_tx. destruct (new_transaction o) as [[|] oe]; simpl; [reflexivity|].
    destruct (tx_get_err o) as [[|msg]|]; simpl;
      try destruct (st !! _); simpl;
      try destruct (tx_put_err o); simpl;
      destruct (tx_commit_err o); reflexivity. }
  repeat split; rewrite ?Hinc, ?Hdec; reflexivity.
Qed.

(** C3, at the inputs where the code departs from it.  With a [Put] that
    fails while the open, the read and the commit succeed,
    [IncrementCounter] reports success although nothing was written; and
    when no transaction can be opened it does not return false: it goes on
    to use the nil transaction. *)
Lemma IncrementCounter_put_error_reports_success :
  returned (AtomicConnector.IncrementCounter counters "a" 1 (fresh_env_with put_fails))
  = Some true /\
  (e' ← final (AtomicConnector.IncrementCounter counters "a" 1 (fresh_env_with put_fails));
   Some (store e' !! NameKey "counters" "a")) = Some None /\
  AtomicConnector.IncrementCounter counters "a" 1 (fresh_env_with open_fails) = Panic.
Proof.
  repeat split; vm_compute; reflexivity.
Qed.

(** ** Delete *)

(** C5.  In both connectors [Delete] returns true exactly when the delete
    call of the client returned an error, and false exactly when that call
    returned nil; it leaves the store as that call left it. *)
Theorem Delete_true_iff_error (d : DatastoreConnector.datastoreConnector)
    (d2 : DatastoreConnector2.datastoreConnector) (key : Key)
    (entityID : string) (e : Env) :
  returned (DatastoreConnector.Delete d key e)
  = match returned (Client_Delete (DatastoreConnector.client d) (DatastoreConnector.ctx d) key e) with
    | Some (Some _) => Some true
    | Some None => Some false
    | None => None
    end /\
  final (DatastoreConnector.Delete d key e)
  = final (Client_Delete (DatastoreConnector.client d) (DatastoreConnector.ctx d) key e) /\
  returned (DatastoreConnector2.Delete d2 entityID e)
  = match returned (Client_Delete (DatastoreConnector2.client d2) (DatastoreConnector2.ctx d2)
                      (NameKey (DatastoreConnector2.CollectionName d2) entityID) e) with
    | Some (Some _) => Some true
    | Some None => Some false
    | None => None
    end /\
  final (DatastoreConnector2.Delete d2 entityID e)
  = final (Client_Delete (DatastoreConnector2.client d2) (DatastoreConnector2.ctx d2)
             (NameKey (DatastoreConnector2.CollectionName d2) entityID) e).
Proof.
  unfold DatastoreConnector.Delete, DatastoreConnector2.Delete.
  destruct (DatastoreConnector.client d), (DatastoreConnector2.client d2);
    run_tx; destruct (delete_err (oracle e)); repeat split; reflexivity.
Qed.

(** ** The client factory *)

(** C6.  [getClientType], in both files, selects the mode by the rule:
    with the emulator enabled, EMULATOR whatever the credentials path;
    otherwise KEYFILE for a non-empty credentials path and SIMPLE for the
    empty one.  The three modes are distinct, so exactly one is selected. *)
Theorem getClientType_rule (emulatorEnabled : bool) (credentialsPath : string) :
  (emulatorEnabled = true ->
   DatastoreConnector.getClientType emulatorEnabled credentialsPath = DatastoreConnector.EMULATOR /\
   DatastoreConnector2.getClientType emulatorEnabled credentialsPath = DatastoreConnector2.EMULATOR) /\
  (emulatorEnabled = false -> credentialsPath <> "" ->
   DatastoreConnector.getClientType emulatorEnabled credentialsPath = DatastoreConnector.KEYFILE /\
   DatastoreConnector2.getClientType emulatorEnabled credentialsPath = DatastoreConnector2.KEYFILE) /\
  (emulatorEnabled = false -> credentialsPath = "" ->
   DatastoreConnector.getClientType emulatorEnabled credentialsPath = DatastoreConnector.SIMPLE /\
   DatastoreConnector2.getClientType emulatorEnabled credentialsPath = DatastoreConnector2.SIMPLE) /\
  (DatastoreConnector.SIMPLE <> DatastoreConnector.EMULATOR /\
   DatastoreConnector.SIMPLE <> DatastoreConnector.KEYFILE /\
   DatastoreConnector.EMULATOR <> DatastoreConnector.KEYFILE).
Proof.
  unfold DatastoreConnector.getClientType, DatastoreConnector2.getClientType.
  split; [|split; [|split]].
  - intros ->. split; reflexivity.
  - intros -> Hpath. apply String.eqb_neq in Hpath. rewrite Hpath. split; reflexivity.
  - intros -> ->. split; reflexivity.
  - repeat split; discriminate.
Qed.

Lemma getClientType_rule_witness :
  DatastoreConnector.getClientType true "/etc/keys" = DatastoreConnector.EMULATOR /\
  DatastoreConnector2.getClientType false "/etc/keys" = DatastoreConnector2.KEYFILE /\
  DatastoreConnector2.getClientType false "" = DatastoreConnector2.SIMPLE.
Proof.
  split; [|split].
  - apply (getClientType_rule true "/etc/keys"). reflexivity.
  - apply (getClientType_rule false "/etc/keys"); [reflexivity | discriminate].
  - apply (getClientType_rule false ""); reflexivity.
Defined.

Ltac unfold_factory :=
  unfold DatastoreConnector.New, DatastoreConnector.once_Do, DatastoreConnector.construct,
    DatastoreConnector.getClientType, DatastoreConnector.lift,
    DatastoreConnector.new_Instance, DatastoreConnector.set_Instance_ctx,
    DatastoreConnector.set_Instance_client, DatastoreConnector.Instance_ctx,
    AtomicConnector.NewAtomicConnector, DatastoreConnector2.getClientType,
    datastore_NewClient, ioutil_ReadFile, google_JWTConfigFromJSON, os_Setenv, fatal_if in *;
  unfold_monad.

(** Case analysis on a [match] whose scrutinee contains no other [match]. *)
Ltac destruct_innermost :=
  match goal with
  | |- context [match ?x with _ => _ end] =>
      lazymatch x with
      | context [match _ with _ => _ end] => fail
      | _ => destruct x eqn:?
      end
  | H : context [match ?x with _ => _ end] |- _ =>
      lazymatch x with
      | context [match _ with _ => _ end] => fail
      | _ => destruct x eqn:?
      end
  end.

(** The [default] branch of the [switch] is live code: a client type
    outside the three constants reaches it. *)
Example construct_default_branch p :
  unknown_client (DatastoreConnector.construct 0 "" "" "" p) = true.
Proof. reflexivity. Qed.

(** C10.  [getClientType] only ever returns SIMPLE, EMULATOR or KEYFILE, so
    neither [New] nor [NewAtomicConnector] ever ends the process with
    "Unknown Datastore client", whatever their arguments and whatever the
    state they are called in. *)
Theorem default_branch_unreachable (emulatorEnable : bool)
    (datastoreEmulatorAddr gcloudCredentialsPath projectID CollectionName : string)
    (p : DatastoreConnector.Process) (e : Env) :
  (DatastoreConnector.getClientType emulatorEnable gcloudCredentialsPath = DatastoreConnector.SIMPLE \/
   DatastoreConnector.getClientType emulatorEnable gcloudCredentialsPath = DatastoreConnector.EMULATOR \/
   DatastoreConnector.getClientType emulatorEnable gcloudCredentialsPath = DatastoreConnector.KEYFILE) /\
  (DatastoreConnector2.getClientType emulatorEnable gcloudCredentialsPath = DatastoreConnector2.SIMPLE \/
   DatastoreConnector2.getClientType emulatorEnable gcloudCredentialsPath = DatastoreConnector2.EMULATOR \/
   DatastoreConnector2.getClientType emulatorEnable gcloudCredentialsPath = DatastoreConnector2.KEYFILE) /\
  unknown_client (DatastoreConnector.New emulatorEnable datastoreEmulatorAddr
                    gcloudCredentialsPath projectID p) = false /\
  unknown_client (AtomicConnector.NewAtomicConnector emulatorEnable datastoreEmulatorAddr
                    gcloudCredentialsPath projectID CollectionName e) = false.
Proof.
  split; [|split; [|split]].
  - unfold DatastoreConnector.getClientType.
    destruct emulatorEnable; [| destruct (String.eqb gcloudCredentialsPath "")]; simpl; auto.
  - unfold DatastoreConnector2.getClientType.
    destruct emulatorEnable; [| destruct (String.eqb gcloudCredentialsPath "")]; simpl; auto.
  - unfold_factory.
    destruct emulatorEnable; [| destruct (String.eqb gcloudCredentialsPath "")]; simpl;
      destruct (DatastoreConnector.once p); simpl; try reflexivity.
    all: repeat (destruct_innermost; simpl; try reflexivity).
  - unfold_factory.
    destruct emulatorEnable; [| destruct (String.eqb gcloudCredentialsPath "")]; simpl.
    all: repeat (destruct_innermost; simpl; try reflexivity).
Qed.

(** ** The shared handle *)

(** Once [once] has fired, [New] returns [Instance] and touches nothing. *)
Lemma New_once_done emu addr cred proj p :
  DatastoreConnector.once p = true ->
  DatastoreConnector.New emu addr cred proj p = Ret (DatastoreConnector.Instance p) p.
Proof.
  intros Honce. unfold DatastoreConnector.New, DatastoreConnector.once_Do. unfold_monad.
  rewrite Honce. reflexivity.
Qed.

(** The first call of [New], if it returns, has constructed one client and
    returns the connector that holds it. *)
Lemma New_first emu addr cred proj e r p' :
  DatastoreConnector.New emu addr cred proj (DatastoreConnector.start e) = Ret r p' ->
  exists h,
    r = Some (DatastoreConnector.mkConnector (Some h) Background) /\
    DatastoreConnector.once p' = true /\
    DatastoreConnector.Instance p' = r /\
    clients (DatastoreConnector.env p') = h :: clients e.
Proof.
  unfold_factory. unfold DatastoreConnector.start.
  destruct emu; [| destruct (String.eqb cred "")]; simpl.
  all: repeat (destruct_innermost; simpl in *; try discriminate).
  all: intros H; inversion H; subst; clear H; simpl; eexists; repeat split.
Qed.

Lemma New_all_once_done calls :
  forall p rs p',
  DatastoreConnector.once p = true ->
  Runs.New_all calls p = Ret rs p' ->
  length rs = length calls /\
  Forall (fun r => r = DatastoreConnector.Instance p) rs /\
  clients (DatastoreConnector.env p') = clients (DatastoreConnector.env p).
Proof.
  induction calls as [|cl calls IH]; intros p rs p' Honce Hrun; simpl in Hrun.
  - inversion Hrun; subst. repeat split. constructor.
  - unfold mbind, M_bind in Hrun. unfold DatastoreConnector.lift at 1 in Hrun.
    unfold modify in Hrun. simpl in Hrun.
    rewrite New_once_done in Hrun by assumption. simpl in Hrun.
    destruct (Runs.New_all calls _) as [rest p''| |] eqn:Hrest; try discriminate.
    inversion Hrun; subst; clear Hrun.
    destruct (IH _ _ _ (Honce : DatastoreConnector.once (DatastoreConnector.mkProcess _ _ _) = true) Hrest)
      as (Hlen & Hall & Hcl). simpl in *.
    repeat split; [congruence | constructor; [reflexivity | exact Hall] | exact Hcl].
Qed.

(** C7, as amended.  In a process, for every non-empty sequence of calls of
    [New] of datasoreConnector.go that return, whatever their arguments:
    exactly one store handle has been constructed, and every call returns
    the connector that holds it. *)
Theorem New_constructs_once (calls : list Runs.New_call) (e : Env)
    (rs : list (option DatastoreConnector.datastoreConnector))
    (p' : DatastoreConnector.Process) :
  calls <> [] ->
  Runs.New_all calls (DatastoreConnector.start e) = Ret rs p' ->
  exists h,
    clients (DatastoreConnector.env p') = h :: clients e /\
    length rs = length calls /\
    Forall (fun r => r = Some (DatastoreConnector.mkConnector (Some h) Background)) rs.
Proof.
  destruct calls as [|cl calls]; [congruence|]. intros _ Hrun. simpl in Hrun.
  unfold mbind, M_bind in Hrun. unfold DatastoreConnector.lift at 1 in Hrun.
  unfold modify in Hrun. simpl in Hrun.
  change (DatastoreConnector.mkProcess false None (with_oracle (Runs.answers cl) e))
    with (DatastoreConnector.start (with_oracle (Runs.answers cl) e)) in Hrun.
  destruct (DatastoreConnector.New _ _ _ _ _) as [r p1| |] eqn:Hfirst; try discriminate.
  destruct (New_first _ _ _ _ _ _ _ Hfirst) as (h & Hr & Honce & Hinst & Hcl).
  destruct (Runs.New_all calls p1) as [rest p2| |] eqn:Hrest; try discriminate.
  inversion Hrun; subst rs p'; clear Hrun.
  destruct (New_all_once_done _ _ _ _ Honce Hrest) as (Hlen & Hall & Hcl').
  exists h. repeat split.
  - rewrite Hcl', Hcl. reflexivity.
  - simpl. congruence.
  - constructor; [exact Hr|]. eapply Forall_impl; [exact Hall|].
    simpl. intros r' ->. congruence.
Qed.

Lemma New_constructs_once_witness :
  exists rs p' h,
    Runs.New_all Runs.two_calls (DatastoreConnector.start fresh_env) = Ret rs p' /\
    clients (DatastoreConnector.env p') = h :: clients fresh_env /\
    length rs = 2%nat /\
    Forall (fun r => r = Some (DatastoreConnector.mkConnector (Some h) Background)) rs.
Proof.
  assert (Hne : Runs.two_calls <> []) by (unfold Runs.two_calls; discriminate).
  destruct (Runs.New_all Runs.two_calls (DatastoreConnector.start fresh_env))
    as [rs p'| |f] eqn:Hrun;
    [| vm_compute in Hrun; discriminate | vm_compute in Hrun; discriminate].
  destruct (New_constructs_once Runs.two_calls fresh_env rs p' Hne Hrun)
    as (h & Hcl & Hlen & Hall).
  exists rs, p', h. repeat split; assumption.
Defined.

(** C7, as stated, fails for [NewAtomicConnector]: two calls in a row
    construct two handles, and the second call returns a connector over the
    second one. *)
Lemma NewAtomicConnector_constructs_each_time :
  returned (Runs.NewAtomicConnector_twice false "" "" "project" "counters" fresh_env)
  = Some (AtomicConnector.mkAtomic (Some (mkClient 0 "project" None AmbientCredentials))
            Background "counters",
          AtomicConnector.mkAtomic (Some (mkClient 1 "project" None AmbientCredentials))
            Background "counters") /\
  (e' ← final (Runs.NewAtomicConnector_twice false "" "" "project" "counters" fresh_env);
   Some (length (clients e'))) = Some 2%nat.
Proof.
  split; vm_compute; reflexivity.
Qed.

(** * Further properties of the code *)

(** ** The counter operations, whatever the store answers *)

(** The store after one call of a counter operation is the store before,
    or the store before with one record written under the counter's key. *)
Lemma counter_call_writes_at_most_key (d : AtomicConnector.datastoreAtomicConnector)
    (entityID : string) (cl : call) (e : Env) (b : bool) (e' : Env) :
  Runs.perform d entityID cl e = Ret b e' ->
  (store e' = store e /\
   (b = true -> tx_put_err (oracle e) <> None)) \/
  (b = true /\ exists r,
     store e' = <[NameKey (AtomicConnector.CollectionName d) entityID := r]> (store e) /\
     (forall delta, cl = Decrement delta -> 0 <= Amount r)).
Proof.
  destruct cl as [delta|delta]; simpl;
    unfold AtomicConnector.IncrementCounter, AtomicConnector.DecrementCounter;
    (destruct (AtomicConnector.client d) as [c|]; [|discriminate]);
    destruct e as [st q env fs cls o]; run_tx;
    (destruct (new_transaction o) as [[|] oe]; simpl; [discriminate|]);
    (destruct (tx_get_err o) as [[|msg]|]; simpl;
       try destruct (st !! _) as [r0|]; simpl;
       try (destruct (tx_put_err o) eqn:Hput; simpl);
       try (destruct (tx_commit_err o); simpl));
    intros H; inversion H; subst; clear H; simpl;
    try (left; split; [reflexivity | intros; congruence]);
    right; (split; [reflexivity|]); eexists; (split; [reflexivity|]);
    intros delta' Heq; try discriminate; simpl;
    match goal with
    | |- context [if ?c then _ else _] => destruct c eqn:Hlt; simpl; [lia | apply Z.ltb_ge in Hlt; lia]
    end.
Qed.

(** X1.  A call of [IncrementCounter] or [DecrementCounter] that reports
    failure has left the store exactly as it was, whatever the store
    answered. *)
Theorem failed_counter_call_leaves_store (d : AtomicConnector.datastoreAtomicConnector)
    (entityID : string) (delta : Z) (e e' : Env) :
  AtomicConnector.IncrementCounter d entityID delta e = Ret false e' \/
  AtomicConnector.DecrementCounter d entityID delta e = Ret false e' ->
  store e' = store e.
Proof.
  intros [H|H].
  - destruct (counter_call_writes_at_most_key d entityID (Increment delta) e false e' H)
      as [[Hst _]|[Hb _]]; [exact Hst | discriminate].
  - destruct (counter_call_writes_at_most_key d entityID (Decrement delta) e false e' H)
      as [[Hst _]|[Hb _]]; [exact Hst | discriminate].
Qed.

Lemma failed_counter_call_leaves_store_witness :
  AtomicConnector.IncrementCounter counters "a" 1 (env_with_amount 3 commit_fails)
  = Ret false (with_pending (fun _ => []) (env_with_amount 3 commit_fails)) /\
  store (with_pending (fun _ => []) (env_with_amount 3 commit_fails))
  = store (env_with_amount 3 commit_fails).
Proof.
  assert (H : AtomicConnector.IncrementCounter counters "a" 1 (env_with_amount 3 commit_fails)
              = Ret false (with_pending (fun _ => []) (env_with_amount 3 commit_fails)))
    by (vm_compute; reflexivity).
  split; [exact H|].
  apply (failed_counter_call_leaves_store counters "a" 1 (env_with_amount 3 commit_fails)).
  left. exact H.
Defined.

(** X2.  Whatever the store answers, a call of [IncrementCounter] or
    [DecrementCounter] that returns has left the record of every other key
    as it was. *)
Theorem counter_call_keeps_other_keys (d : AtomicConnector.datastoreAtomicConnector)
    (entityID : string) (delta : Z) (e : Env) (b : bool) (e' : Env) (k : Key) :
  AtomicConnector.IncrementCounter d entityID delta e = Ret b e' \/
  AtomicConnector.DecrementCounter d entityID delta e = Ret b e' ->
  k <> NameKey (AtomicConnector.CollectionName d) entityID ->
  store e' !! k = store e !! k.
Proof.
  intros Hrun Hk.
  assert (Hcases : store e' = store e \/
                   exists r, store e' = <[NameKey (AtomicConnector.CollectionName d) entityID := r]> (store e)).
  { destruct Hrun as [H|H].
    - destruct (counter_call_writes_at_most_key d entityID (Increment delta) e b e' H)
        as [[Hst _]|[_ (r & Hst & _)]]; eauto.
    - destruct (counter_call_writes_at_most_key d entityID (Decrement delta) e b e' H)
        as [[Hst _]|[_ (r & Hst & _)]]; eauto. }
  destruct Hcases as [->|[r ->]]; [reflexivity|].
  apply lookup_insert_ne. congruence.
Qed.

Lemma counter_call_keeps_other_keys_witness :
  AtomicConnector.DecrementCounter counters "b" 1 (env_with_amount 3 no_faults)
  = Ret true (written (NameKey "counters" "b") 0 (env_with_amount 3 no_faults)) /\
  store (written (NameKey "counters" "b") 0 (env_with_amount 3 no_faults)) !! NameKey "counters" "a"
  = store (env_with_amount 3 no_faults) !! NameKey "counters" "a".
Proof.
  assert (H : AtomicConnector.DecrementCounter counters "b" 1 (env_with_amount 3 no_faults)
              = Ret true (written (NameKey "counters" "b") 0 (env_with_amount 3 no_faults)))
    by (vm_compute; reflexivity).
  split; [exact H|].
  apply (counter_call_keeps_other_keys counters "b" 1 (env_with_amount 3 no_faults) true).
  - right. exact H.
  - discriminate.
Defined.

(** X3.  [DecrementCounter] never makes a counter negative: for every
    delta, of either sign and however large, and whatever the store
    answers, a counter whose amount on record is non-negative (or that has
    no record) has a non-negative amount on record after the call. *)
Theorem DecrementCounter_keeps_nonnegative (d : AtomicConnector.datastoreAtomicConnector)
    (entityID : string) (delta : Z) (e : Env) (b : bool) (e' : Env) :
  AtomicConnector.DecrementCounter d entityID delta e = Ret b e' ->
  0 <= amount_at (store e) (NameKey (AtomicConnector.CollectionName d) entityID) ->
  0 <= amount_at (store e') (NameKey (AtomicConnector.CollectionName d) entityID).
Proof.
  intros H Ha.
  destruct (counter_call_writes_at_most_key d entityID (Decrement delta) e b e' H)
    as [[Hst _]|[_ (r & Hst & Hr)]].
  - rewrite Hst. exact Ha.
  - rewrite Hst. unfold amount_at. rewrite lookup_insert_eq. apply (Hr delta). reflexivity.
Qed.

Lemma DecrementCounter_keeps_nonnegative_witness :
  AtomicConnector.DecrementCounter counters "a" GoInt.min_int (env_with_amount 3 no_faults)
  = Ret true (written (NameKey "counters" "a") 0 (env_with_amount 3 no_faults)) /\
  0 <= amount_at (store (written (NameKey "counters" "a") 0 (env_with_amount 3 no_faults)))
         (NameKey "counters" "a").
Proof.
  assert (H : AtomicConnector.DecrementCounter counters "a" GoInt.min_int (env_with_amount 3 no_faults)
              = Ret true (written (NameKey "counters" "a") 0 (env_with_amount 3 no_faults)))
    by (vm_compute; reflexivity).
  split; [exact H|].
  apply (DecrementCounter_keeps_nonnegative counters "a" GoInt.min_int
           (env_with_amount 3 no_faults) true _ H).
  vm_compute; discriminate.
Defined.

(** ** The counter operations on a store that answers without error *)

(** X4.  [IncrementCounter] adds the delta whatever its sign: when the sum
    is a Go [int], the record written holds the amount on record plus the
    delta, also when that is negative, and the call reports success. *)
Theorem IncrementCounter_adds (d : AtomicConnector.datastoreAtomicConnector)
    (c : Client) (entityID : string) (delta : Z) (e : Env) :
  AtomicConnector.client d = Some c ->
  healthy (oracle e) ->
  GoInt.in_range (amount_at (store e) (NameKey (AtomicConnector.CollectionName d) entityID) + delta) ->
  exists e',
    AtomicConnector.IncrementCounter d entityID delta e = Ret true e' /\
    store e' = <[ NameKey (AtomicConnector.CollectionName d) entityID :=
                    mkCounter (amount_at (store e)
                      (NameKey (AtomicConnector.CollectionName d) entityID) + delta) ]> (store e).
Proof.
  intros Hclient Hh Hrange.
  rewrite (IncrementCounter_healthy d c entityID Hclient delta e Hh).
  eexists; split; [reflexivity|].
  unfold GoInt.add. rewrite wrap_small by assumption. reflexivity.
Qed.

Lemma IncrementCounter_adds_witness :
  exists e',
    AtomicConnector.IncrementCounter counters "a" (-5) (env_with_amount 3 no_faults) = Ret true e' /\
    store e' = <[ NameKey "counters" "a" :=
                    mkCounter (amount_at (store (env_with_amount 3 no_faults))
                                 (NameKey "counters" "a") + -5) ]>
                 (store (env_with_amount 3 no_faults)).
Proof.
  apply (IncrementCounter_adds counters a_client "a" (-5) (env_with_amount 3 no_faults)).
  - reflexivity.
  - repeat split; reflexivity.
  - vm_compute; split; discriminate.
Defined.

Lemma Count_healthy (d : AtomicConnector.datastoreAtomicConnector) (c : Client)
    (entityID : string) (e : Env) :
  AtomicConnector.client d = Some c ->
  healthy (oracle e) ->
  AtomicConnector.Count d entityID e
  = Ret (amount_at (store e) (NameKey (AtomicConnector.CollectionName d) entityID))
      (with_pending (fun _ => []) (with_pending (fun _ => []) e)).
Proof.
  intros Hclient (Hlive & Hget & Hput & Hcommit).
  unfold AtomicConnector.Count, amount_at. rewrite Hclient.
  destruct e as [st q env fs cl o]; simpl in *.
  destruct (new_transaction o) as [t oe] eqn:Hnt; simpl in Hlive; subst t.
  run_tx. rewrite Hnt; simpl. rewrite Hget.
  destruct (st !! _) as [r|]; simpl; rewrite Hcommit; reflexivity.
Qed.

(** X5.  Read your own write: on a store that answers without error,
    [Count] right after [IncrementCounter] returns the amount that was on
    record plus the delta (as a Go [int]), and right after
    [DecrementCounter] the amount less the delta, or 0 if that is negative. *)
Theorem Count_after_write (d : AtomicConnector.datastoreAtomicConnector)
    (c : Client) (entityID : string) (delta : Z) (e : Env) :
  AtomicConnector.client d = Some c ->
  healthy (oracle e) ->
  (exists e1 e2,
     AtomicConnector.IncrementCounter d entityID delta e = Ret true e1 /\
     AtomicConnector.Count d entityID e1
     = Ret (GoInt.add (amount_at (store e) (NameKey (AtomicConnector.CollectionName d) entityID))
              delta) e2) /\
  (exists e1 e2,
     AtomicConnector.DecrementCounter d entityID delta e = Ret true e1 /\
     AtomicConnector.Count d entityID e1
     = Ret (Z.max 0 (GoInt.sub (amount_at (store e)
                        (NameKey (AtomicConnector.CollectionName d) entityID)) delta)) e2).
Proof.
  intros Hclient Hh. split.
  - rewrite (IncrementCounter_healthy d c entityID Hclient delta e Hh).
    eexists _, _. split; [reflexivity|].
    rewrite (Count_healthy d c entityID _ Hclient) by exact Hh.
    rewrite amount_at_written. reflexivity.
  - rewrite (DecrementCounter_healthy d c entityID Hclient delta e Hh). cbv zeta.
    replace (if GoInt.sub (amount_at (store e)
                  (NameKey (AtomicConnector.CollectionName d) entityID)) delta <? 0
             then 0
             else GoInt.sub (amount_at (store e)
                    (NameKey (AtomicConnector.CollectionName d) entityID)) delta)
      with (Z.max 0 (GoInt.sub (amount_at (store e)
                       (NameKey (AtomicConnector.CollectionName d) entityID)) delta)).
    + eexists _, _. split; [reflexivity|].
      rewrite (Count_healthy d c entityID _ Hclient) by exact Hh.
      rewrite amount_at_written. reflexivity.
    + destruct (Z.ltb_spec (GoInt.sub (amount_at (store e)
                  (NameKey (AtomicConnector.CollectionName d) entityID)) delta) 0); lia.
Qed.

Lemma Count_after_write_witness :
  (exists e1 e2,
     AtomicConnector.IncrementCounter counters "a" 4 (env_with_amount 3 no_faults) = Ret true e1 /\
     AtomicConnector.Count counters "a" e1
     = Ret (GoInt.add (amount_at (store (env_with_amount 3 no_faults)) (NameKey "counters" "a")) 4) e2) /\
  (exists e1 e2,
     AtomicConnector.DecrementCounter counters "a" 4 (env_with_amount 3 no_faults) = Ret true e1 /\
     AtomicConnector.Count counters "a" e1
     = Ret (Z.max 0 (GoInt.sub (amount_at (store (env_with_amount 3 no_faults))
                        (NameKey "counters" "a")) 4)) e2).
Proof.
  apply (Count_after_write counters a_client "a" 4 (env_with_amount 3 no_faults)).
  - reflexivity.
  - repeat split; reflexivity.
Defined.

(** X6.  [DecrementCounter] by a negative delta is [IncrementCounter] by
    its opposite: on a store that answers without error, whenever the
    amount plus [k] (as a Go [int]) is not negative, decrementing by [-k]
    and incrementing by [k] come to the same. *)
Theorem DecrementCounter_by_opposite (d : AtomicConnector.datastoreAtomicConnector)
    (c : Client) (entityID : string) (k : Z) (e : Env) :
  AtomicConnector.client d = Some c ->
  healthy (oracle e) ->
  0 <= GoInt.add (amount_at (store e) (NameKey (AtomicConnector.CollectionName d) entityID)) k ->
  AtomicConnector.DecrementCounter d entityID (- k) e
  = AtomicConnector.IncrementCounter d entityID k e.
Proof.
  intros Hclient Hh Hpos.
  rewrite (IncrementCounter_healthy d c entityID Hclient k e Hh).
  rewrite (DecrementCounter_healthy d c entityID Hclient (- k) e Hh).
  f_equal. f_equal. cbv zeta. unfold GoInt.sub, GoInt.add in *.
  replace (amount_at (store e) (NameKey (AtomicConnector.CollectionName d) entityID) - - k)
    with (amount_at (store e) (NameKey (AtomicConnector.CollectionName d) entityID) + k) by lia.
  destruct (Z.ltb_spec (GoInt.wrap (amount_at (store e)
              (NameKey (AtomicConnector.CollectionName d) entityID) + k)) 0); [lia | reflexivity].
Qed.

Lemma DecrementCounter_by_opposite_witness :
  AtomicConnector.DecrementCounter counters "a" (- 4) (env_with_amount 3 no_faults)
  = AtomicConnector.IncrementCounter counters "a" 4 (env_with_amount 3 no_faults).
Proof.
  apply (DecrementCounter_by_opposite counters a_client "a" 4 (env_with_amount 3 no_faults)).
  - reflexivity.
  - repeat split; reflexivity.
  - vm_compute; discriminate.
Defined.

(** X7.  On a store that answers without error, for a non-negative amount
    and a non-negative delta whose sum is a Go [int]: an increment followed
    by a decrement by the same delta brings the amount back; a decrement
    followed by an increment leaves the larger of the amount and the
    delta. *)
Theorem increment_and_decrement_by_same_delta
    (d : AtomicConnector.datastoreAtomicConnector) (c : Client)
    (entityID : string) (delta : Z) (e : Env) :
  AtomicConnector.client d = Some c ->
  healthy (oracle e) ->
  0 <= amount_at (store e) (NameKey (AtomicConnector.CollectionName d) entityID) ->
  0 <= delta ->
  amount_at (store e) (NameKey (AtomicConnector.CollectionName d) entityID) + delta
    <= GoInt.max_int ->
  Runs.amount_after d entityID [Increment delta; Decrement delta] e
  = Some (amount_at (store e) (NameKey (AtomicConnector.CollectionName d) entityID)) /\
  Runs.amount_after d entityID [Decrement delta; Increment delta] e
  = Some (Z.max (amount_at (store e) (NameKey (AtomicConnector.CollectionName d) entityID))
            delta).
Proof.
  intros Hclient Hh Ha Hd Hmax.
  assert (Hds : Forall (fun c => 0 <= delta_of c <= GoInt.max_int)
                  [Increment delta; Decrement delta]) by (repeat constructor; simpl; lia).
  assert (Hds' : Forall (fun c => 0 <= delta_of c <= GoInt.max_int)
                   [Decrement delta; Increment delta]) by (repeat constructor; simpl; lia).
  split.
  - destruct (perform_all_healthy d c entityID _ Hclient e Hh Ha Hds)
      as (rs & e' & Hrun & _ & _ & Hfin); [simpl; lia|].
    unfold Runs.amount_after. rewrite Hrun. simpl. rewrite Hfin.
    unfold fold_amount. simpl. f_equal. lia.
  - destruct (perform_all_healthy d c entityID _ Hclient e Hh Ha Hds')
      as (rs & e' & Hrun & _ & _ & Hfin); [simpl; lia|].
    unfold Runs.amount_after. rewrite Hrun. simpl. rewrite Hfin.
    unfold fold_amount. simpl. f_equal. lia.
Qed.

Lemma increment_and_decrement_by_same_delta_witness :
  Runs.amount_after counters "a" [Increment 5; Decrement 5] (env_with_amount 3 no_faults)
  = Some (amount_at (store (env_with_amount 3 no_faults)) (NameKey "counters" "a")) /\
  Runs.amount_after counters "a" [Decrement 5; Increment 5] (env_with_amount 3 no_faults)
  = Some (Z.max (amount_at (store (env_with_amount 3 no_faults)) (NameKey "counters" "a")) 5).
Proof.
  apply (increment_and_decrement_by_same_delta counters a_client "a" 5
           (env_with_amount 3 no_faults)).
  - reflexivity.
  - repeat split; reflexivity.
  - vm_compute; discriminate.
  - lia.
  - vm_compute; discriminate.
Defined.

(** ** The names of the modes *)

(** X8.  [String] names the mode that [getClientType] selected, in both
    files, and so never panics on it. *)
Theorem String_names_selected_mode (emulatorEnable : bool) (gcloudCredentialsPath : string) :
  DatastoreConnector.String
    (DatastoreConnector.getClientType emulatorEnable gcloudCredentialsPath)
  = Some (if emulatorEnable then "EMULATOR"
          else if String.eqb gcloudCredentialsPath "" then "SIMPLE" else "KEYFILE") /\
  DatastoreConnector2.String
    (DatastoreConnector2.getClientType emulatorEnable gcloudCredentialsPath)
  = Some (if emulatorEnable then "EMULATOR"
          else if String.eqb gcloudCredentialsPath "" then "SIMPLE" else "KEYFILE").
Proof.
  unfold DatastoreConnector.getClientType, DatastoreConnector2.getClientType.
  destruct emulatorEnable; [| destruct (String.eqb gcloudCredentialsPath "")];
    split; reflexivity.
Qed.

Lemma String_index (c : Z) :
  GoInt.in_range c ->
  (DatastoreConnector.String c = None <-> c < 1 \/ 3 < c) /\
  DatastoreConnector2.String c = DatastoreConnector.String c.
Proof.
  intros Hc. split; [|reflexivity].
  unfold DatastoreConnector.String, GoInt.sub. cbv zeta.
  unfold GoInt.in_range, GoInt.min_int, GoInt.max_int, GoInt.int_size in Hc. simpl in Hc.
  destruct (Z.eq_dec c (-9223372036854775808)) as [->|Hmin].
  - vm_compute. split; [intros _; left; reflexivity | reflexivity].
  - rewrite wrap_small
      by (unfold GoInt.in_range, GoInt.min_int, GoInt.max_int, GoInt.int_size; simpl; lia).
    simpl length. change (Z.of_nat 3) with 3.
    destruct (Z.ltb_spec (c - 1) 0); simpl; [split; [lia | reflexivity]|].
    destruct (Z.leb_spec 3 (c - 1)); simpl; [split; [lia | reflexivity]|].
    assert (Hcases : c = 1 \/ c = 2 \/ c = 3) by lia.
    destruct Hcases as [-> | [-> | ->]]; simpl; split; try discriminate; lia.
Qed.

(** X9.  On a client type that is not one of the three constants, its zero
    value among them, [String] indexes outside the array of names and
    panics; on the three constants it does not. *)
Theorem String_panics_outside_the_modes (c : Z) :
  GoInt.in_range c ->
  (DatastoreConnector.String c = None <-> c < 1 \/ 3 < c) /\
  (DatastoreConnector2.String c = None <-> c < 1 \/ 3 < c).
Proof.
  intros Hc. destruct (String_index c Hc) as [H1 H2]. rewrite H2. split; exact H1.
Qed.

Lemma String_panics_outside_the_modes_witness :
  DatastoreConnector.String 0 = None /\ DatastoreConnector2.String 0 = None.
Proof.
  assert (Hr : GoInt.in_range 0) by (vm_compute; split; discriminate).
  destruct (String_panics_outside_the_modes 0 Hr) as [H1 H2].
  split; [apply H1 | apply H2]; left; lia.
Defined.

(** ** What the factories construct *)

(** [path.Join] cleans what it joins: a trailing or doubled slash, [.] and
    [..] do not change the file that is named. *)
Example path_Join_cleans :
  path_Join "/etc/keys" "keyfile.json" = "/etc/keys/keyfile.json" /\
  path_Join "/etc/keys/" "keyfile.json" = "/etc/keys/keyfile.json" /\
  path_Join "/etc//keys/." "keyfile.json" = "/etc/keys/keyfile.json" /\
  path_Join "/etc/ssl/../keys" "keyfile.json" = "/etc/keys/keyfile.json" /\
  path_Join "keys" "keyfile.json" = "keys/keyfile.json" /\
  path_Join "." "keyfile.json" = "keyfile.json" /\
  path_Join "../keys" "keyfile.json" = "../keys/keyfile.json" /\
  path_Join "/.." "keyfile.json" = "/keyfile.json".
Proof. repeat split; reflexivity. Qed.

(** X10.  When [NewAtomicConnector] returns, it has constructed exactly one
    new client, for the given project, and returns a connector over it for
    the given collection, so the connector's client is never nil.  With the
    emulator enabled the address was put in the process environment first,
    so the client read it, and talks to the emulator at that address if
    the address is not empty (to no emulator if it is); otherwise the
    environment is untouched.  The client carries a token source made from
    the file that [path.Join] names exactly in the KEYFILE mode, and the
    ambient credentials in the other two. *)
Theorem NewAtomicConnector_returns (emulatorEnable : bool)
    (datastoreEmulatorAddr gcloudCredentialsPath projectID CollectionName : string)
    (e : Env) (d : AtomicConnector.datastoreAtomicConnector) (e' : Env) :
  AtomicConnector.NewAtomicConnector emulatorEnable datastoreEmulatorAddr
    gcloudCredentialsPath projectID CollectionName e = Ret d e' ->
  exists h,
    AtomicConnector.client d = Some h /\
    AtomicConnector.CollectionName d = CollectionName /\
    clients e' = h :: clients e /\
    store e' = store e /\
    client_id h = length (clients e) /\
    client_project h = projectID /\
    (emulatorEnable = true ->
       client_host h = Some datastoreEmulatorAddr /\
       (datastoreEmulatorAddr <> "" -> emulator_of h = Some datastoreEmulatorAddr) /\
       (datastoreEmulatorAddr = "" -> emulator_of h = None) /\
       environ e' = <["DATASTORE_EMULATOR_HOST" := datastoreEmulatorAddr]> (environ e) /\
       client_cred h = AmbientCredentials) /\
    (emulatorEnable = false ->
       client_host h = environ e !! "DATASTORE_EMULATOR_HOST" /\
       environ e' = environ e) /\
    (emulatorEnable = false -> gcloudCredentialsPath = "" ->
       client_cred h = AmbientCredentials) /\
    (emulatorEnable = false -> gcloudCredentialsPath <> "" ->
       exists jsonKey,
         files e !! path_Join gcloudCredentialsPath "keyfile.json" = Some jsonKey /\
         client_cred h = TokenSource jsonKey).
Proof.
  unfold_factory.
  destruct emulatorEnable;
    [| destruct (String.eqb gcloudCredentialsPath "") eqn:Hpath]; simpl.
  all: repeat (destruct_innermost; simpl in *; try discriminate).
  all: intros H; inversion H; subst; clear H; simpl.
  all: destruct e as [st q env fs cls o]; simpl in *.
  all: eexists; repeat split; try reflexivity; try discriminate; simpl.
  - apply lookup_insert_eq.
  - intros Hne. unfold emulator_of; simpl. rewrite lookup_insert_eq.
    apply String.eqb_neq in Hne. rewrite Hne. reflexivity.
  - intros ->. unfold emulator_of; simpl. rewrite lookup_insert_eq. reflexivity.
  - intros _ Hne. exfalso. apply Hne. apply String.eqb_eq. assumption.
  - intros _ Heq. apply String.eqb_eq in Heq. congruence.
  - intros _ _. eexists. split; reflexivity.
Qed.

Lemma NewAtomicConnector_returns_witness :
  exists d e' h,
    AtomicConnector.NewAtomicConnector true "localhost:8081" "" "project" "counters"
      fresh_env = Ret d e' /\
    AtomicConnector.client d = Some h /\
    AtomicConnector.CollectionName d = "counters" /\
    emulator_of h = Some "localhost:8081".
Proof.
  destruct (AtomicConnector.NewAtomicConnector true "localhost:8081" "" "project" "counters"
              fresh_env) as [d e'| |f] eqn:Hrun;
    [| vm_compute in Hrun; discriminate | vm_compute in Hrun; discriminate].
  destruct (NewAtomicConnector_returns _ _ _ _ _ _ _ _ Hrun)
    as (h & Hcl & Hcoll & _ & _ & _ & _ & Hemu & _).
  destruct (Hemu eq_refl) as (_ & Hof & _).
  exists d, e', h. repeat split; [exact Hcl | exact Hcoll |].
  apply Hof. discriminate.
Defined.

(** X11.  The two factories of datastoreAtomicConnector.go, [New] and
    [NewAtomicConnector], do the same: for the same arguments in the same
    environment they end alike, and when they return, the two connectors
    have the same client and collection and the environment is the same. *)
Theorem New_and_NewAtomicConnector_agree (emulatorEnable : bool)
    (datastoreEmulatorAddr gcloudCredentialsPath projectID CollectionName : string)
    (e : Env) :
  map_outcome parts_of_basic
    (DatastoreConnector2.New emulatorEnable datastoreEmulatorAddr
       gcloudCredentialsPath projectID CollectionName e)
  = map_outcome parts_of_atomic
      (AtomicConnector.NewAtomicConnector emulatorEnable datastoreEmulatorAddr
         gcloudCredentialsPath projectID CollectionName e).
Proof.
  unfold DatastoreConnector2.New. unfold_factory.
  destruct emulatorEnable; [| destruct (String.eqb gcloudCredentialsPath "")]; simpl.
  all: repeat (destruct_innermost; simpl in *; try reflexivity).
Qed.

(** X12.  In datasoreConnector.go, [New] with the emulator enabled
    constructs the client before it puts the emulator address in the
    process environment: the client of the connector it returns points at
    whatever host the environment named before the call, and only the
    environment left behind names the address. *)
Theorem New_sets_emulator_host_too_late
    (datastoreEmulatorAddr gcloudCredentialsPath projectID : string) (e : Env)
    (r : option DatastoreConnector.datastoreConnector) (p' : DatastoreConnector.Process) :
  DatastoreConnector.New true datastoreEmulatorAddr gcloudCredentialsPath projectID
    (DatastoreConnector.start e) = Ret r p' ->
  exists h,
    r = Some (DatastoreConnector.mkConnector (Some h) Background) /\
    client_host h = environ e !! "DATASTORE_EMULATOR_HOST" /\
    environ (DatastoreConnector.env p') !! "DATASTORE_EMULATOR_HOST"
    = Some datastoreEmulatorAddr.
Proof.
  unfold_factory. unfold DatastoreConnector.start. simpl.
  repeat (destruct_innermost; simpl in *; try discriminate).
  intros H; inversion H; subst; clear H; simpl.
  eexists; repeat split. apply lookup_insert_eq.
Qed.

Lemma New_sets_emulator_host_too_late_witness :
  exists r p' h,
    DatastoreConnector.New true "localhost:8081" "" "project"
      (DatastoreConnector.start fresh_env) = Ret r p' /\
    r = Some (DatastoreConnector.mkConnector (Some h) Background) /\
    client_host h = None /\
    environ (DatastoreConnector.env p') !! "DATASTORE_EMULATOR_HOST" = Some "localhost:8081".
Proof.
  destruct (DatastoreConnector.New true "localhost:8081" "" "project"
              (DatastoreConnector.start fresh_env)) as [r p'| |f] eqn:Hrun;
    [| vm_compute in Hrun; discriminate | vm_compute in Hrun; discriminate].
  destruct (New_sets_emulator_host_too_late _ _ _ _ _ _ Hrun) as (h & Hr & Hhost & Henv).
  exists r, p', h. repeat split; assumption.
Defined.

(** X13.  A construction step that fails ends the process: if the client
    cannot be constructed, or in the KEYFILE mode the file that
    [path.Join] names from the credentials path and keyfile.json cannot be
    read or parsed, then [NewAtomicConnector], and [New] of
    datasoreConnector.go on its first call, do not return but end in
    [log.Fatal]. *)
Theorem failed_construction_is_fatal (emulatorEnable : bool)
    (datastoreEmulatorAddr gcloudCredentialsPath projectID CollectionName : string)
    (e : Env) :
  new_client_err (oracle e) <> None \/
  (emulatorEnable = false /\ gcloudCredentialsPath <> "" /\
   (files e !! path_Join gcloudCredentialsPath "keyfile.json" = None \/
    jwt_config_err (oracle e) <> None)) ->
  (exists f, AtomicConnector.NewAtomicConnector emulatorEnable datastoreEmulatorAddr
               gcloudCredentialsPath projectID CollectionName e = Fatal f) /\
  (exists f, DatastoreConnector.New emulatorEnable datastoreEmulatorAddr
               gcloudCredentialsPath projectID (DatastoreConnector.start e) = Fatal f).
Proof.
  intros Hfail. unfold_factory. unfold DatastoreConnector.start.
  destruct emulatorEnable;
    [| destruct (String.eqb gcloudCredentialsPath "") eqn:Hpath]; simpl.
  - destruct Hfail as [Hnc|[Hemu _]]; [|discriminate].
    destruct (new_client_err (oracle e)); [|congruence]. simpl. eauto.
  - apply String.eqb_eq in Hpath.
    destruct Hfail as [Hnc|(_ & Hne & _)]; [|contradiction].
    destruct (new_client_err (oracle e)); [|congruence]. simpl. eauto.
  - destruct (files e !! _) as [jsonKey|] eqn:Hfile; simpl; [|eauto].
    destruct (jwt_config_err (oracle e)) eqn:Hjwt; simpl; [eauto|].
    destruct (new_client_err (oracle e)) eqn:Hnc; simpl; [eauto|].
    exfalso. destruct Hfail as [H|(_ & _ & [H|H])]; congruence.
Qed.

Lemma failed_construction_is_fatal_witness :
  (exists f, AtomicConnector.NewAtomicConnector false "" "/etc/keys" "project" "counters"
               fresh_env = Fatal f) /\
  (exists f, DatastoreConnector.New false "" "/etc/keys" "project"
               (DatastoreConnector.start fresh_env) = Fatal f).
Proof.
  apply (failed_construction_is_fatal false "" "/etc/keys" "project" "counters" fresh_env).
  right. split; [reflexivity|]. split; [discriminate|]. left. reflexivity.
Defined.

(** ** Saving, retrieving and deleting records *)

(** X14.  A record saved (or updated: [Update] does not ask for the record
    to exist) is the record retrieved: when the store answers both calls
    without error, [Retrieve] right after [Save] or [Update] with the same
    connector and identifier yields the saved record and no error, whatever
    was stored under that identifier before. *)
Theorem Save_then_Retrieve (d : DatastoreConnector2.datastoreConnector) (c : Client)
    (entityID : string) (entity dst : BasicCounter) (b : Backend) :
  DatastoreConnector2.client d = Some c ->
  client_put_err (backend_answers b) = None ->
  client_get_err (backend_answers b) = None ->
  (DatastoreConnector2.Save d entityID entity;;
   DatastoreConnector2.Retrieve d entityID dst) b
  = Ret (entity, None)
      (saved (NameKey (DatastoreConnector2.CollectionName d) entityID) entity b) /\
  (DatastoreConnector2.Update d entityID entity;;
   DatastoreConnector2.Retrieve d entityID dst) b
  = Ret (entity, None)
      (saved (NameKey (DatastoreConnector2.CollectionName d) entityID) entity b).
Proof.
  intros Hclient Hput Hget.
  unfold DatastoreConnector2.Save, DatastoreConnector2.Update, DatastoreConnector2.Retrieve,
    Client_Put, Client_Get, saved.
  rewrite Hclient. unfold_monad. rewrite Hput. simpl. rewrite Hget.
  rewrite lookup_insert_eq. split; reflexivity.
Qed.

Lemma Save_then_Retrieve_witness :
  (DatastoreConnector2.Save entities "a" (mkCounter 7);;
   DatastoreConnector2.Retrieve entities "a" (mkCounter 0))
    (mkBackend (env_with_amount 3 no_faults) quiet)
  = Ret (mkCounter 7, None)
      (saved (NameKey "counters" "a") (mkCounter 7)
         (mkBackend (env_with_amount 3 no_faults) quiet)) /\
  (DatastoreConnector2.Update entities "a" (mkCounter 7);;
   DatastoreConnector2.Retrieve entities "a" (mkCounter 0))
    (mkBackend (env_with_amount 3 no_faults) quiet)
  = Ret (mkCounter 7, None)
      (saved (NameKey "counters" "a") (mkCounter 7)
         (mkBackend (env_with_amount 3 no_faults) quiet)).
Proof.
  apply (Save_then_Retrieve entities a_client "a" (mkCounter 7) (mkCounter 0)
           (mkBackend (env_with_amount 3 no_faults) quiet)); reflexivity.
Defined.

(** X15.  Collections keep records apart: a record saved through a
    connector for one collection is not found through a connector for
    another collection under the same identifier; [Retrieve] reports
    [ErrNoSuchEntity] and leaves the destination as it was. *)
Theorem Retrieve_from_other_collection (d d' : DatastoreConnector2.datastoreConnector)
    (c c' : Client) (entityID : string) (entity dst : BasicCounter) (b : Backend) :
  DatastoreConnector2.client d = Some c ->
  DatastoreConnector2.client d' = Some c' ->
  DatastoreConnector2.CollectionName d <> DatastoreConnector2.CollectionName d' ->
  client_put_err (backend_answers b) = None ->
  client_get_err (backend_answers b) = None ->
  store (backend_env b) !! NameKey (DatastoreConnector2.CollectionName d') entityID = None ->
  (DatastoreConnector2.Save d entityID entity;;
   DatastoreConnector2.Retrieve d' entityID dst) b
  = Ret (dst, Some ErrNoSuchEntity)
      (saved (NameKey (DatastoreConnector2.CollectionName d) entityID) entity b).
Proof.
  intros Hclient Hclient' Hne Hput Hget Hnone.
  unfold DatastoreConnector2.Save, DatastoreConnector2.Retrieve, Client_Put, Client_Get, saved.
  rewrite Hclient, Hclient'. unfold_monad. rewrite Hput. simpl. rewrite Hget.
  rewrite lookup_insert_ne by (unfold NameKey; congruence).
  rewrite Hnone. reflexivity.
Qed.

Lemma Retrieve_from_other_collection_witness :
  (DatastoreConnector2.Save entities "a" (mkCounter 7);;
   DatastoreConnector2.Retrieve others "a" (mkCounter 0))
    (mkBackend (env_with_amount 3 no_faults) quiet)
  = Ret (mkCounter 0, Some ErrNoSuchEntity)
      (saved (NameKey "counters" "a") (mkCounter 7)
         (mkBackend (env_with_amount 3 no_faults) quiet)).
Proof.
  apply (Retrieve_from_other_collection entities others a_client a_client "a"
           (mkCounter 7) (mkCounter 0) (mkBackend (env_with_amount 3 no_faults) quiet));
    try reflexivity.
  discriminate.
Defined.

(** X16.  A record saved and then deleted is gone: when the store answers
    without error, [Delete] after [Save] returns false and a following
    [Retrieve] reports [ErrNoSuchEntity]; in datasoreConnector.go, [Delete]
    after [Save] with the same key returns false and leaves no record under
    the key. *)
Theorem Save_then_Delete (d : DatastoreConnector2.datastoreConnector)
    (d1 : DatastoreConnector.datastoreConnector) (c c1 : Client)
    (entityID : string) (key : Key) (entity dst : BasicCounter) (b : Backend) :
  DatastoreConnector2.client d = Some c ->
  DatastoreConnector.client d1 = Some c1 ->
  client_put_err (backend_answers b) = None ->
  client_get_err (backend_answers b) = None ->
  delete_err (oracle (backend_env b)) = None ->
  (exists b',
     (DatastoreConnector2.Save d entityID entity;;
      deleted ← on_env (DatastoreConnector2.Delete d entityID);
      '(dst', err) ← DatastoreConnector2.Retrieve d entityID dst;
      mret (deleted, dst', err)) b
     = Ret (false, dst, Some ErrNoSuchEntity) b' /\
     store (backend_env b')
       = delete (NameKey (DatastoreConnector2.CollectionName d) entityID) (store (backend_env b))) /\
  (exists b',
     (DatastoreConnector.Save d1 key entity;;
      on_env (DatastoreConnector.Delete d1 key)) b = Ret false b' /\
     store (backend_env b') = delete key (store (backend_env b))).
Proof.
  intros Hclient Hclient1 Hput Hget Hdel.
  unfold DatastoreConnector2.Save, DatastoreConnector2.Delete, DatastoreConnector2.Retrieve,
    DatastoreConnector.Save, DatastoreConnector.Delete, Client_Put, Client_Get, Client_Delete,
    on_env.
  rewrite Hclient, Hclient1. unfold_monad.
  destruct b as [e a]; simpl in *. rewrite Hput. simpl. rewrite Hdel. simpl.
  rewrite Hget. simpl. rewrite lookup_delete_eq. split; eexists; (split; [reflexivity|]); simpl;
    apply delete_insert_eq.
Qed.

Lemma Save_then_Delete_witness :
  (exists b',
     (DatastoreConnector2.Save entities "a" (mkCounter 7);;
      deleted ← on_env (DatastoreConnector2.Delete entities "a");
      '(dst', err) ← DatastoreConnector2.Retrieve entities "a" (mkCounter 0);
      mret (deleted, dst', err)) (mkBackend fresh_env quiet)
     = Ret (false, mkCounter 0, Some ErrNoSuchEntity) b' /\
     store (backend_env b')
       = delete (NameKey "counters" "a") (store (backend_env (mkBackend fresh_env quiet)))) /\
  (exists b',
     (DatastoreConnector.Save (DatastoreConnector.mkConnector (Some a_client) Background)
        (NameKey "application" "a") (mkCounter 7);;
      on_env (DatastoreConnector.Delete
                (DatastoreConnector.mkConnector (Some a_client) Background)
                (NameKey "application" "a"))) (mkBackend fresh_env quiet) = Ret false b' /\
     store (backend_env b')
       = delete (NameKey "application" "a") (store (backend_env (mkBackend fresh_env quiet)))).
Proof.
  apply (Save_then_Delete entities (DatastoreConnector.mkConnector (Some a_client) Background)
           a_client a_client "a" (NameKey "application" "a") (mkCounter 7) (mkCounter 0)
           (mkBackend fresh_env quiet)); reflexivity.
Defined.

(** ** The two connectors over one collection *)

(** X17.  A basic connector and an atomic connector for the same collection
    work on the same records: on a store that answers without error,
    [Count] returns the amount of a record that [Save] has just written
    under the identifier, and 0 once [Delete] has removed the record, so a
    counter can be set and reset through the basic connector. *)
Theorem connectors_share_records (d : DatastoreConnector2.datastoreConnector)
    (da : AtomicConnector.datastoreAtomicConnector) (c c' : Client)
    (entityID : string) (amount : Z) (b : Backend) :
  DatastoreConnector2.client d = Some c ->
  AtomicConnector.client da = Some c' ->
  DatastoreConnector2.CollectionName d = AtomicConnector.CollectionName da ->
  client_put_err (backend_answers b) = None ->
  delete_err (oracle (backend_env b)) = None ->
  healthy (oracle (backend_env b)) ->
  (exists b',
     (DatastoreConnector2.Save d entityID (mkCounter amount);;
      on_env (AtomicConnector.Count da entityID)) b = Ret amount b') /\
  (exists b',
     (on_env (DatastoreConnector2.Delete d entityID);;
      on_env (AtomicConnector.Count da entityID)) b = Ret 0 b').
Proof.
  intros Hclient Hclienta Hcoll Hput Hdel Hh.
  unfold DatastoreConnector2.Save, DatastoreConnector2.Delete, Client_Put, Client_Delete, on_env.
  rewrite Hclient, Hcoll. unfold_monad.
  destruct b as [e a]; simpl in *. rewrite Hput, Hdel. simpl.
  rewrite !(Count_healthy da c' entityID _ Hclienta) by exact Hh.
  unfold amount_at; simpl. rewrite lookup_insert_eq, lookup_delete_eq. simpl.
  split; eexists; reflexivity.
Qed.

Lemma connectors_share_records_witness :
  (exists b',
     (DatastoreConnector2.Save entities "a" (mkCounter 7);;
      on_env (AtomicConnector.Count counters "a"))
       (mkBackend (env_with_amount 3 no_faults) quiet) = Ret 7 b') /\
  (exists b',
     (on_env (DatastoreConnector2.Delete entities "a");;
      on_env (AtomicConnector.Count counters "a"))
       (mkBackend (env_with_amount 3 no_faults) quiet) = Ret 0 b').
Proof.
  apply (connectors_share_records entities counters a_client a_client "a" 7
           (mkBackend (env_with_amount 3 no_faults) quiet)); try reflexivity.
  repeat split; reflexivity.
Defined.
